(** * The ledger and consensus core of BlockchainApp.tsx

    A shallow embedding of the classes [SimpleHash], [Transaction], [Block],
    [Validator] and [CosmosBlockchain] of
    src/components/BlockchainApp.tsx, and the properties of block
    production, delegation and submission proved about them.

    Modelling conventions.
    - A JavaScript [number] that holds an amount, a fee, a balance, a
      stake, the total supply, the mining reward or a random draw is an
      IEEE 754 binary64 value, [float]: [+], [-], [*] and the comparisons
      are those of the machine, with their rounding, their infinities and
      their NaN. Amounts reach the core through [parseFloat], so fractions,
      negative numbers and NaN are ordinary inputs.
    - A number that counts blocks or array elements, or is a timestamp of
      [Date.now()], is an integer of [Z]: these stay far below 2^53, where
      the increments of the code are exact.
    - [string | null] is [option string]; a string is a [string] whose
      characters stand for its UTF-16 code units.
    - [Date.now()] and [Math.random()] are inputs of the operation that
      calls them.
    - A [Map] whose enumeration order the code relies on (the validators)
      is an association list in insertion order; the other maps are
      [gmap]s.
    - A method of [CosmosBlockchain] is a computation of the monad [M]:
      it takes the object's state and returns the state it leaves, with
      either a value or the error it threw. *)

From Stdlib Require Import ZArith QArith Qround String Ascii List Lia Floats.
From Stdlib Require DecimalString HexadecimalString.
From stdpp Require Import gmap strings list fin_maps.

Local Open Scope string_scope.
Local Open Scope Z_scope.

(** ** Numbers and strings of the host language *)

Module JS.

(** [ToInt32]: the value modulo 2^32, read as a signed 32-bit integer. *)
Definition toInt32 (z : Z) : Z := (z + 2 ^ 31) mod 2 ^ 32 - 2 ^ 31.

(** [str.charCodeAt(i)] for every [i], in order. *)
Definition charCodes (str : string) : list Z :=
  List.map (fun c => Z.of_N (N_of_ascii c)) (list_ascii_of_string str).

(** [String(n)] for an integer below 10^21, as a template literal renders
    a timestamp or an array length. *)
Definition integerToString (n : Z) : string :=
  DecimalString.NilEmpty.string_of_int (Z.to_int n).

(** [n.toString(16)] for a non-negative integer. *)
Definition toString16 (n : Z) : string :=
  HexadecimalString.NilEmpty.string_of_uint (N.to_hex_uint (Z.to_N n)).

(** A template literal renders [null] as the word null. *)
Definition nullableToString (o : option string) : string :=
  match o with
  | Some s => s
  | None => "null"
  end.

(** [x || 0] on a number that may be [undefined]: 0, -0 and NaN are
    falsy. *)
Definition orZero (x : option float) : float :=
  match x with
  | Some v => if (v =? 0)%float || is_nan v then 0%float else v
  | None => 0%float
  end.

(** Truthiness of a [string | null]: [null] and the empty string are
    falsy. *)
Definition truthy (o : option string) : bool :=
  match o with
  | Some s => negb (s =? EmptyString)%string
  | None => false
  end.

(** The rational a finite double stands for. *)
Definition value (x : float) : option Q :=
  match Prim2SF x with
  | S754_zero _ => Some 0%Q
  | S754_finite s m e =>
      let q := (inject_Z (Zpos m) * 2 ^ e)%Q in
      Some (if s then (- q)%Q else q)
  | _ => None
  end.

Definition Qltb (a b : Q) : bool := negb (Qle_bool b a).

(** The largest [p] with [10 ^ p <= x], for a positive [x] whose binary
    logarithm is about [log2]. *)
Fixpoint raise (fuel : nat) (x : Q) (p : Z) : Z :=
  match fuel with
  | O => p
  | S fuel => if Qle_bool (10 ^ (p + 1))%Q x then raise fuel x (p + 1) else p
  end.

Fixpoint lower (fuel : nat) (x : Q) (p : Z) : Z :=
  match fuel with
  | O => p
  | S fuel => if Qltb x (10 ^ p)%Q then lower fuel x (p - 1) else p
  end.

Definition floorLog10 (m : positive) (e : Z) : Z :=
  let x := (inject_Z (Zpos m) * 2 ^ e)%Q in
  let estimate := (Z.log2 (Zpos m) + e) * 1233 / 4096 in
  raise 4 x (lower 4 x estimate).

(** Whether the real [v] rounds to the double [m * 2 ^ e] (round to
    nearest, ties to even). *)
Definition roundsTo (m : positive) (e : Z) (v : Q) : bool :=
  let high := (inject_Z (2 * Zpos m + 1) * 2 ^ (e - 1))%Q in
  let low :=
    if (Zpos m =? 2 ^ 52) && (-1074 <? e)
    then (inject_Z (4 * Zpos m - 1) * 2 ^ (e - 2))%Q
    else (inject_Z (2 * Zpos m - 1) * 2 ^ (e - 1))%Q in
  if Z.even (Zpos m)
  then Qle_bool low v && Qle_bool v high
  else Qltb low v && Qltb v high.

(** The digits [s] and the exponent [n] of Number::toString: the least
    number [k] of digits with [s * 10 ^ (n - k)] rounding to the double,
    and among those the [s] closest to it. [k] runs from [17 - fuel + 1]. *)
Fixpoint shortest (fuel : nat) (k : Z) (m : positive) (e : Z) (log10 : Z) : Z * Z :=
  let x := (inject_Z (Zpos m) * 2 ^ e)%Q in
  let p := log10 + 1 - k in
  let t := (x / 10 ^ p)%Q in
  let below := Qfloor t in
  let above := below + 1 in
  let belowOk := roundsTo m e (inject_Z below * 10 ^ p)%Q in
  let aboveOk := roundsTo m e (inject_Z above * 10 ^ p)%Q in
  let n := p + k in
  let pick (s : Z) : Z * Z := if s =? 10 ^ k then (10 ^ (k - 1), n + 1) else (s, n) in
  let closest :=
    match (t - inject_Z below ?= inject_Z above - t)%Q with
    | Lt => below
    | Gt => above
    | Eq => if Z.even below then below else above
    end in
  match fuel with
  | O => (below, n)
  | S fuel =>
      if belowOk && aboveOk then pick closest
      else if belowOk then pick below
      else if aboveOk then pick above
      else shortest fuel (k + 1) m e log10
  end.

Fixpoint zeros (n : nat) : string :=
  match n with
  | O => EmptyString
  | S n => String "0" (zeros n)
  end.

(** The text of a positive finite double with digits [s] and exponent
    [n]. *)
Definition format (s n : Z) : string :=
  let digits := integerToString s in
  let k := Z.of_nat (String.length digits) in
  if (k <=? n) && (n <=? 21) then digits ++ zeros (Z.to_nat (n - k))
  else if (0 <? n) && (n <=? 21) then
    substring 0 (Z.to_nat n) digits ++ "."
      ++ substring (Z.to_nat n) (Z.to_nat (k - n)) digits
  else if (-6 <? n) && (n <=? 0) then "0." ++ zeros (Z.to_nat (- n)) ++ digits
  else
    let exponent := n - 1 in
    let sign := if exponent <? 0 then "-" else "+" in
    let mantissa :=
      if k =? 1 then digits
      else substring 0 1 digits ++ "." ++ substring 1 (Z.to_nat (k - 1)) digits in
    mantissa ++ "e" ++ sign ++ integerToString (Z.abs exponent).

(** [String(x)] and the text of [x] in a template literal. *)
Definition numberToString (x : float) : string :=
  match Prim2SF x with
  | S754_nan => "NaN"
  | S754_zero _ => "0"
  | S754_infinity s => if s then "-Infinity" else "Infinity"
  | S754_finite s m e =>
      let (digits, n) := shortest 17 1 m e (floorLog10 m e) in
      (if s then "-" else "") ++ format digits n
  end.

End JS.

(** ** JSON.stringify, on the values the block hash serializes *)

Module JSON.

Definition quote : ascii := ascii_of_nat 34.
Definition backslash : ascii := ascii_of_nat 92.

Definition hexDigit (n : N) : string :=
  HexadecimalString.NilEmpty.string_of_uint (N.to_hex_uint n).

(** One character of a quoted string. *)
Definition escapeChar (c : ascii) : string :=
  let n := N_of_ascii c in
  if (n =? 34)%N then String backslash (String quote EmptyString)
  else if (n =? 92)%N then String backslash (String backslash EmptyString)
  else if (n =? 8)%N then String backslash "b"
  else if (n =? 12)%N then String backslash "f"
  else if (n =? 10)%N then String backslash "n"
  else if (n =? 13)%N then String backslash "r"
  else if (n =? 9)%N then String backslash "t"
  else if (n <? 32)%N then
    String backslash ("u00" ++ hexDigit (n / 16) ++ hexDigit (n mod 16))
  else String c EmptyString.

Definition stringifyString (s : string) : string :=
  String quote
    (String.concat EmptyString (List.map escapeChar (list_ascii_of_string s))
     ++ String quote EmptyString).

Definition stringifyNullable (o : option string) : string :=
  match o with
  | Some s => stringifyString s
  | None => "null"
  end.

(** A number that is not finite is serialized as null. *)
Definition stringifyNumber (x : float) : string :=
  if is_finite x then JS.numberToString x else "null".

Definition stringifyInteger (n : Z) : string := JS.integerToString n.

(** [key:value], the key quoted. *)
Definition member (key value : string) : string :=
  stringifyString key ++ ":" ++ value.

Definition stringifyObject (members : list string) : string :=
  "{" ++ String.concat "," members ++ "}".

Definition stringifyArray (elements : list string) : string :=
  "[" ++ String.concat "," elements ++ "]".

End JSON.

(** ** class SimpleHash *)

Module SimpleHash.

(** One turn of the loop of [create]:
    [hash = ((hash << 5) - hash) + char; hash = hash & hash]. The
    intermediate values are integers below 2^37, which doubles hold
    exactly. *)
Definition step (hash char : Z) : Z :=
  let hash := JS.toInt32 (Z.shiftl hash 5) - hash + char in
  Z.land (JS.toInt32 hash) (JS.toInt32 hash).

(** [SimpleHash.create(data)] on a string. *)
Definition create (data : string) : string :=
  let hash := fold_left step (JS.charCodes data) 0 in
  JS.toString16 (Z.abs hash).

End SimpleHash.

(** ** class Transaction *)

Module Transaction.

Record t : Type := mk {
  fromAddress : option string;
  toAddress : string;
  amount : float;
  fee : float;
  timestamp : Z;
  hash : string;
  signature : option string
}.

Definition calculateHash (this : t) : string :=
  SimpleHash.create
    (JS.nullableToString (fromAddress this) ++ toAddress this
       ++ JS.numberToString (amount this) ++ JS.numberToString (fee this)
       ++ JS.integerToString (timestamp this)).

(** [new Transaction(fromAddress, toAddress, amount, fee)], with [now]
    the value of [Date.now()]. *)
Definition new (fromAddress : option string) (toAddress : string)
    (amount fee : float) (now : Z) : t :=
  let this := mk fromAddress toAddress amount fee now EmptyString None in
  mk fromAddress toAddress amount fee now (calculateHash this) None.

Definition signTransaction (privateKey : string) (this : t) : t :=
  match fromAddress this with
  | None => this
  | Some _ =>
      mk (fromAddress this) (toAddress this) (amount this) (fee this)
         (timestamp this) (hash this)
         (Some (SimpleHash.create (hash this ++ privateKey)))
  end.

Definition isValid (this : t) : bool :=
  match fromAddress this with
  | None => true
  | Some _ =>
      match signature this with
      | Some _ => true
      | None => false
      end
  end.

(** [JSON.stringify] of a transaction: its fields in the order the
    constructor assigns them. *)
Definition stringify (this : t) : string :=
  JSON.stringifyObject
    [ JSON.member "fromAddress" (JSON.stringifyNullable (fromAddress this));
      JSON.member "toAddress" (JSON.stringifyString (toAddress this));
      JSON.member "amount" (JSON.stringifyNumber (amount this));
      JSON.member "fee" (JSON.stringifyNumber (fee this));
      JSON.member "timestamp" (JSON.stringifyInteger (timestamp this));
      JSON.member "hash" (JSON.stringifyString (hash this));
      JSON.member "signature" (JSON.stringifyNullable (signature this)) ].

End Transaction.

(** ** class Block *)

Module Block.

Record t : Type := mk {
  index : Z;
  timestamp : Z;
  transactions : list Transaction.t;
  previousHash : string;
  validator : string;
  hash : string
}.

Definition calculateHash (this : t) : string :=
  SimpleHash.create
    (JS.integerToString (index this) ++ previousHash this
       ++ JS.integerToString (timestamp this)
       ++ JSON.stringifyArray (List.map Transaction.stringify (transactions this))
       ++ validator this).

(** [new Block(index, transactions, previousHash, validator)], with
    [now] the value of [Date.now()] the default timestamp takes. *)
Definition new (index : Z) (transactions : list Transaction.t)
    (previousHash validator : string) (now : Z) : t :=
  let this := mk index now transactions previousHash validator EmptyString in
  mk index now transactions previousHash validator (calculateHash this).

End Block.

(** ** class Validator *)

Module Validator.

Record t : Type := mk {
  address : string;
  stake : float;
  isActive : bool;
  missedBlocks : Z;
  totalBlocks : Z
}.

Definition new (address : string) (stake : float) : t :=
  mk address stake true 0 0.

Definition increaseStake (amount : float) (this : t) : t :=
  mk (address this) (stake this + amount)%float (isActive this)
     (missedBlocks this) (totalBlocks this).

(** [if (this.stake >= amount) this.stake -= amount] *)
Definition decreaseStake (amount : float) (this : t) : t :=
  if (amount <=? stake this)%float then
    mk (address this) (stake this - amount)%float (isActive this)
       (missedBlocks this) (totalBlocks this)
  else this.

(** [validator.totalBlocks++] *)
Definition incrTotalBlocks (this : t) : t :=
  mk (address this) (stake this) (isActive this)
     (missedBlocks this) (totalBlocks this + 1).

End Validator.

(** ** class SimpleWallet *)

Module SimpleWallet.

Record t : Type := mk {
  privateKey : string;
  address : string
}.

(** [new SimpleWallet()], with [privateKey] the string the two calls of
    [Math.random().toString(36)] produce. *)
Definition new (privateKey : string) : t :=
  mk privateKey (String.substring 0 12 (SimpleHash.create privateKey)).

Definition signTransaction (this : t) (transaction : Transaction.t) : Transaction.t :=
  Transaction.signTransaction (privateKey this) transaction.

End SimpleWallet.

(** ** Map<string, V>, in insertion order *)

Module OMap.

Section Ops.
Context {V : Type}.

Definition has (k : string) (m : list (string * V)) : bool :=
  existsb (fun kv => (kv.1 =? k)%string) m.

Definition get (k : string) (m : list (string * V)) : option V :=
  snd <$> List.find (fun kv => (kv.1 =? k)%string) m.

(** [m.set(k, v)]: an existing key keeps its place. *)
Fixpoint set (k : string) (v : V) (m : list (string * V)) : list (string * V) :=
  match m with
  | [] => [(k, v)]
  | (k', v') :: rest =>
      if (k' =? k)%string then (k, v) :: rest else (k', v') :: set k v rest
  end.

(** A mutation [f] of the object [m.get(k)], seen through the map. *)
Fixpoint update (k : string) (f : V -> V) (m : list (string * V)) : list (string * V) :=
  match m with
  | [] => []
  | (k', v') :: rest =>
      if (k' =? k)%string then (k', f v') :: rest else (k', v') :: update k f rest
  end.

(** [Array.from(m.values())], each object with its position in the map:
    the position stands for the reference to the object. *)
Definition values (m : list (string * V)) : list (nat * V) :=
  imap (fun i kv => (i, kv.2)) m.

(** A mutation [f] of the object at position [i]. *)
Definition updateAt (i : nat) (f : V -> V) (m : list (string * V)) : list (string * V) :=
  alter (fun kv => (kv.1, f kv.2)) i m.

End Ops.

End OMap.

(** ** class CosmosBlockchain *)

Module CosmosBlockchain.

(** The errors the methods throw. The first four are the [Error]s the
    source creates, named after their messages: invalid transaction, no
    active validators, validator does not exist, insufficient balance.
    [TypeError] is what reading a property of [undefined] throws. *)
Inductive Error : Type :=
| UnauthorizedTransaction
| NoActiveValidators
| UnknownValidator
| InsufficientBalance
| TypeError.

Inductive Completion (A : Type) : Type :=
| Return (a : A)
| Throw (e : Error).
Arguments Return {A} a.
Arguments Throw {A} e.

Record IChainInfo : Type := mkChainInfo {
  blockHeight : Z;
  infoTotalSupply : float;
  infoActiveValidators : Z;
  infoPendingTransactions : Z
}.

(** The fields of the object. *)
Record t : Type := mk {
  chain : list Block.t;
  pendingTransactions : list Transaction.t;
  miningReward : float;
  validators : list (string * Validator.t);
  balances : gmap string float;
  stakingPool : gmap string (gmap string float);
  totalSupply : float
}.

Definition set_chain (v : list Block.t) (s : t) : t :=
  mk v (pendingTransactions s) (miningReward s) (validators s) (balances s)
     (stakingPool s) (totalSupply s).

Definition set_pendingTransactions (v : list Transaction.t) (s : t) : t :=
  mk (chain s) v (miningReward s) (validators s) (balances s)
     (stakingPool s) (totalSupply s).

Definition set_validators (v : list (string * Validator.t)) (s : t) : t :=
  mk (chain s) (pendingTransactions s) (miningReward s) v (balances s)
     (stakingPool s) (totalSupply s).

Definition set_balances (v : gmap string float) (s : t) : t :=
  mk (chain s) (pendingTransactions s) (miningReward s) (validators s) v
     (stakingPool s) (totalSupply s).

Definition set_stakingPool (v : gmap string (gmap string float)) (s : t) : t :=
  mk (chain s) (pendingTransactions s) (miningReward s) (validators s)
     (balances s) v (totalSupply s).

Definition set_totalSupply (v : float) (s : t) : t :=
  mk (chain s) (pendingTransactions s) (miningReward s) (validators s)
     (balances s) (stakingPool s) v.

(** *** The monad of the methods: state, and an error that ends the call *)

Definition M (A : Type) : Type := t -> t * Completion A.

Definition ret {A : Type} (a : A) : M A := fun s => (s, Return a).

Definition throw {A : Type} (e : Error) : M A := fun s => (s, Throw e).

Definition bind {A B : Type} (m : M A) (k : A -> M B) : M B :=
  fun s =>
    match m s with
    | (s', Return a) => k a s'
    | (s', Throw e) => (s', Throw e)
    end.

(** Read [this]. *)
Definition gets {A : Type} (f : t -> A) : M A := fun s => (s, Return (f s)).

(** Assign to fields of [this]. *)
Definition modify (f : t -> t) : M unit := fun s => (f s, Return tt).

Notation "'let*' x ':=' c1 'in' c2" := (bind c1 (fun x => c2))
  (at level 10, x name, c1 at level 100, c2 at level 200).
Notation "c1 ';;' c2" := (bind c1 (fun _ => c2))
  (at level 100, c2 at level 200, right associativity).

(** [for (const x of l) body(x)], and [l.forEach(body)]. *)
Fixpoint forEach {A : Type} (l : list A) (body : A -> M unit) : M unit :=
  match l with
  | [] => ret tt
  | x :: rest => body x ;; forEach rest body
  end.

(** *** Methods *)

Definition createGenesisBlock (now : Z) : Block.t :=
  Block.new 0 [] "0" "genesis" now.

Definition genesisValidators : list (string * float) :=
  [ ("validator1", 1000000%float); ("validator2", 800000%float);
    ("validator3", 600000%float) ].

Definition initializeGenesisValidators : M unit :=
  forEach genesisValidators (fun v =>
    modify (fun s => set_validators (OMap.set v.1 (Validator.new v.1 v.2) (validators s)) s) ;;
    modify (fun s => set_balances (<[v.1 := v.2]> (balances s)) s) ;;
    modify (fun s => set_totalSupply (totalSupply s + v.2)%float s)).

(** [new CosmosBlockchain()], with [now] the value of [Date.now()] in the
    genesis block. *)
Definition constructor (now : Z) : t :=
  (initializeGenesisValidators
     (mk [createGenesisBlock now] [] 100%float [] ∅ ∅ 0%float)).1.

(** [this.chain[this.chain.length - 1]], [undefined] on an empty chain. *)
Definition getLatestBlock (s : t) : option Block.t := last (chain s).

Definition createTransaction (transaction : Transaction.t) : M unit :=
  if negb (Transaction.isValid transaction) then throw UnauthorizedTransaction
  else modify (fun s => set_pendingTransactions (pendingTransactions s ++ [transaction]) s).

(** [this.balances.get(address) || 0] *)
Definition getBalance (address : string) (s : t) : float :=
  JS.orZero (balances s !! address).

(** [this.balances.set(address, value)] *)
Definition setBalance (address : string) (value : float) : M unit :=
  modify (fun s => set_balances (<[address := value]> (balances s)) s).

(** The validators that pass the filter of [selectValidator],
    [v.isActive && v.stake > 0], in enumeration order, each with its
    position in the map. *)
Definition activeValidators (s : t) : list (nat * Validator.t) :=
  List.filter (fun v => Validator.isActive v.2 && (0 <? Validator.stake v.2)%float)
    (OMap.values (validators s)).

(** The loop of [selectValidator]; [None] when it ends without
    returning. *)
Fixpoint walk (random currentSum : float) (l : list (nat * Validator.t))
    : option (nat * Validator.t) :=
  match l with
  | [] => None
  | validator :: rest =>
      let currentSum := (currentSum + Validator.stake validator.2)%float in
      if (random <=? currentSum)%float then Some validator
      else walk random currentSum rest
  end.

(** [selectValidator()], with [rand] the value of [Math.random()]. The
    result is the validator's position in the map and the object's
    fields. *)
Definition selectValidator (rand : float) : M (nat * Validator.t) :=
  let* activeValidators := gets activeValidators in
  match activeValidators with
  | [] => throw NoActiveValidators
  | first :: _ =>
      let totalStake :=
        fold_left (fun sum v => (sum + Validator.stake v.2)%float) activeValidators
          0%float in
      let random := (rand * totalStake)%float in
      match walk random 0%float activeValidators with
      | Some validator => ret validator
      | None => ret first
      end
  end.

(** [balance >= transaction.amount + transaction.fee], unless the origin
    is falsy. *)
Definition isTransactionValid (transaction : Transaction.t) (s : t) : bool :=
  match Transaction.fromAddress transaction with
  | Some fromAddress =>
      if negb (JS.truthy (Some fromAddress)) then true
      else
        let balance := getBalance fromAddress s in
        (Transaction.amount transaction + Transaction.fee transaction <=? balance)%float
  | None => true
  end.

(** The body of the settlement loop of [minePendingTransactions]. *)
Definition settle (validatorAddress : string) (transaction : Transaction.t) : M unit :=
  match Transaction.fromAddress transaction with
  | Some fromAddress =>
      (let* b := gets (getBalance fromAddress) in
       setBalance fromAddress
         (b - Transaction.amount transaction - Transaction.fee transaction)%float) ;;
      (let* b := gets (getBalance (Transaction.toAddress transaction)) in
       setBalance (Transaction.toAddress transaction)
         (b + Transaction.amount transaction)%float) ;;
      (let* b := gets (getBalance validatorAddress) in
       setBalance validatorAddress (b + Transaction.fee transaction)%float)
  | None =>
      (let* b := gets (getBalance (Transaction.toAddress transaction)) in
       setBalance (Transaction.toAddress transaction)
         (b + Transaction.amount transaction)%float) ;;
      modify (fun s =>
        set_totalSupply (totalSupply s + Transaction.amount transaction)%float s)
  end.

(** [minePendingTransactions()], with [rand] the value of [Math.random()]
    and [nowTx], [nowBlock] the values of [Date.now()] in the reward
    transaction and in the block. *)
Definition minePendingTransactions (rand : float) (nowTx nowBlock : Z) : M Block.t :=
  let* validator := selectValidator rand in
  let* miningReward := gets miningReward in
  let rewardTransaction :=
    Transaction.new None (Validator.address validator.2) miningReward 0%float nowTx in
  modify (fun s => set_pendingTransactions (pendingTransactions s ++ [rewardTransaction]) s) ;;
  let* validTransactions :=
    gets (fun s => List.filter (fun tx => isTransactionValid tx s) (pendingTransactions s)) in
  let* length := gets (fun s => Z.of_nat (List.length (chain s))) in
  let* latest := gets getLatestBlock in
  match latest with
  | None => throw TypeError
  | Some latest =>
      let block :=
        Block.new length validTransactions (Block.hash latest)
          (Validator.address validator.2) nowBlock in
      forEach validTransactions (settle (Validator.address validator.2)) ;;
      modify (fun s => set_chain (chain s ++ [block]) s) ;;
      modify (fun s =>
        set_validators (OMap.updateAt validator.1 Validator.incrTotalBlocks (validators s)) s) ;;
      modify (set_pendingTransactions []) ;;
      ret block
  end.

Definition delegate (delegatorAddress validatorAddress : string) (amount : float)
    : M unit :=
  let* known := gets (fun s => OMap.has validatorAddress (validators s)) in
  if negb known then throw UnknownValidator
  else
    let* balance := gets (getBalance delegatorAddress) in
    if (balance <? amount)%float then throw InsufficientBalance
    else
      (let* b := gets (getBalance delegatorAddress) in
       setBalance delegatorAddress (b - amount)%float) ;;
      (let* present := gets (fun s => bool_decide (is_Some (stakingPool s !! delegatorAddress))) in
       if negb present
       then modify (fun s => set_stakingPool (<[delegatorAddress := ∅]> (stakingPool s)) s)
       else ret tt) ;;
      (let* delegatorStaking := gets (fun s => default ∅ (stakingPool s !! delegatorAddress)) in
       let currentStake := JS.orZero (delegatorStaking !! validatorAddress) in
       modify (fun s =>
         set_stakingPool
           (<[delegatorAddress :=
                <[validatorAddress := (currentStake + amount)%float]> delegatorStaking]>
              (stakingPool s)) s)) ;;
      modify (fun s =>
        set_validators (OMap.update validatorAddress (Validator.increaseStake amount) (validators s)) s).

Definition getChainInfo (s : t) : IChainInfo :=
  mkChainInfo
    (Z.of_nat (List.length (chain s)) - 1)
    (totalSupply s)
    (Z.of_nat (List.length
       (List.filter (fun v : nat * Validator.t => Validator.isActive v.2)
          (OMap.values (validators s)))))
    (Z.of_nat (List.length (pendingTransactions s))).

Definition getStakingInfo (address : string) (s : t) : gmap string float :=
  default ∅ (stakingPool s !! address).

End CosmosBlockchain.

(** ** The component's callbacks, as far as they act on the chain object *)

Module BlockchainApp.

Import CosmosBlockchain.

(** [createWallet]: a new wallet is given a balance of 1000. *)
Definition createWallet (privateKey : string) : M SimpleWallet.t :=
  let wallet := SimpleWallet.new privateKey in
  setBalance (SimpleWallet.address wallet) 1000%float ;;
  modify (fun s => set_totalSupply (totalSupply s + 1000)%float s) ;;
  ret wallet.

(** [handleTransfer], past the checks of the form: build, sign, submit.
    [amount] and [fee] are the results of [parseFloat]. *)
Definition handleTransfer (selectedWallet : SimpleWallet.t) (toAddress : string)
    (amount fee : float) (now : Z) : M unit :=
  let transaction :=
    Transaction.new (Some (SimpleWallet.address selectedWallet)) toAddress amount fee now in
  let transaction := SimpleWallet.signTransaction selectedWallet transaction in
  createTransaction transaction.

End BlockchainApp.

(** ** Runs of the chain object *)

Module Run.

Import CosmosBlockchain.

(** The state a call leaves, whether it returned or threw. *)
Definition exec {A : Type} (m : M A) (s : t) : t := (m s).1.

(** One call of a core operation. [Math.random()] is in [0, 1). *)
Inductive step : t -> t -> Prop :=
| step_createTransaction (transaction : Transaction.t) (s : t) :
    step s (exec (createTransaction transaction) s)
| step_minePendingTransactions (rand : float) (nowTx nowBlock : Z) (s : t) :
    (0 <=? rand)%float = true -> (rand <? 1)%float = true ->
    step s (exec (minePendingTransactions rand nowTx nowBlock) s)
| step_delegate (delegatorAddress validatorAddress : string) (amount : float) (s : t) :
    step s (exec (delegate delegatorAddress validatorAddress amount) s).

(** The states a chain object goes through after its construction. *)
Inductive reachable : t -> Prop :=
| reachable_constructor (now : Z) : reachable (constructor now)
| reachable_step (s s' : t) : reachable s -> step s s' -> reachable s'.

(** Settlement of a list of transactions, as the loop of
    [minePendingTransactions] runs it. *)
Definition settleAll (validatorAddress : string) (transactions : list Transaction.t)
    (s : t) : t :=
  exec (forEach transactions (settle validatorAddress)) s.

(** The state a successful [delegate] leaves, write by write. *)
Definition delegated (delegatorAddress validatorAddress : string) (amount : float)
    (s : t) : t :=
  let s1 := exec (setBalance delegatorAddress (getBalance delegatorAddress s - amount)%float) s in
  let s2 :=
    if bool_decide (is_Some (stakingPool s1 !! delegatorAddress)) then s1
    else set_stakingPool (<[delegatorAddress := ∅]> (stakingPool s1)) s1 in
  let delegatorStaking := default ∅ (stakingPool s2 !! delegatorAddress) in
  let s3 :=
    set_stakingPool
      (<[delegatorAddress :=
           <[validatorAddress :=
               (JS.orZero (delegatorStaking !! validatorAddress) + amount)%float]>
             delegatorStaking]> (stakingPool s2)) s2 in
  set_validators
    (OMap.update validatorAddress (Validator.increaseStake amount) (validators s3)) s3.

(** The sum of the validators' [totalBlocks] counters. *)
Definition producedBlocks (s : t) : Z :=
  foldr (fun kv acc => Validator.totalBlocks kv.2 + acc) 0 (validators s).

(** The sum of the stakes of a list of validators, as [reduce] and the
    loop of [selectValidator] accumulate it. *)
Definition sumStake (l : list (nat * Validator.t)) : float :=
  fold_left (fun sum v => (sum + Validator.stake v.2)%float) l 0%float.

(** The exact sum, in the rationals, of the values of a list of numbers;
    none when one of them is not finite. *)
Fixpoint exactSum (xs : list float) : option Q :=
  match xs with
  | [] => Some 0%Q
  | x :: rest =>
      match JS.value x, exactSum rest with
      | Some q, Some r => Some (q + r)%Q
      | _, _ => None
      end
  end.

(** [exactDifference x y ds]: in the rationals, [x - y] is the sum of
    [ds]. This is what a statement that a number grew or fell by exactly
    some amounts says of finite numbers. *)
Definition exactDifference (x y : float) (ds : list float) : Prop :=
  match JS.value x, JS.value y, exactSum ds with
  | Some a, Some b, Some d => (a - b == d)%Q
  | _, _, _ => False
  end.

End Run.

(** ** Concrete runs *)

Module Scenario.

Import CosmosBlockchain Run.

Definition genesis : t := constructor 0.

(** Two signed transfers of 600000 from validator1, whose balance is
    1000000, submitted before one block is produced. *)
Definition spend (now : Z) : Transaction.t :=
  Transaction.signTransaction "key"
    (Transaction.new (Some "validator1") "merchant" 600000%float 0%float now).

Definition doubleSpendPending : t :=
  exec (createTransaction (spend 2)) (exec (createTransaction (spend 1)) genesis).

Definition doubleSpendMined : t :=
  exec (minePendingTransactions 0.5%float 3 4) doubleSpendPending.

(** A wallet that transfers 50 to itself with a fee of 1. *)
Definition wallet : SimpleWallet.t := SimpleWallet.new "abc".

Definition funded : t := exec (BlockchainApp.createWallet "abc") genesis.

Definition selfTransfer : Transaction.t :=
  SimpleWallet.signTransaction wallet
    (Transaction.new (Some (SimpleWallet.address wallet)) (SimpleWallet.address wallet)
       50%float 1%float 1).

Definition selfTransferPending : t :=
  exec (BlockchainApp.handleTransfer wallet (SimpleWallet.address wallet) 50%float 1%float 1)
    funded.

Definition selfTransferMined : t :=
  exec (minePendingTransactions 0.5%float 2 3) selfTransferPending.



Definition transferPending : t :=
  exec (BlockchainApp.handleTransfer wallet "b" 50%float 1%float 1) funded.

Definition transferMined : t :=
  exec (minePendingTransactions 0.5%float 2 3) transferPending.


(** A transfer of 2000 from the wallet, whose balance is 1000. *)
Definition overdraft : Transaction.t :=
  SimpleWallet.signTransaction wallet
    (Transaction.new (Some (SimpleWallet.address wallet)) "b" 2000%float 1%float 1).

Definition overdraftPending : t :=
  exec (BlockchainApp.handleTransfer wallet "b" 2000%float 1%float 1) funded.

Definition overdraftMined : t :=
  exec (minePendingTransactions 0.5%float 2 3) overdraftPending.

Definition overdraftBlock : Block.t :=
  Block.new 1 [Transaction.new None "validator2" 100%float 0%float 2]
    (Block.hash (createGenesisBlock 0)) "validator2" 3.

(** A chain none of whose validators is both active and staked. *)
Definition allInactive : t :=
  set_validators
    [ ("validator1", Validator.mk "validator1" 1000000%float false 0 0);
      ("validator2", Validator.mk "validator2" 0%float true 0 0) ]
    genesis.

(** A chain with one active validator among three. *)
Definition oneActive : t :=
  set_validators
    [ ("validator1", Validator.mk "validator1" 1000000%float false 0 0);
      ("validator2", Validator.mk "validator2" 800000%float true 0 0);
      ("validator3", Validator.mk "validator3" 0%float true 0 0) ]
    genesis.

(** A signed transfer whose origin is the empty string. *)
Definition emptyOrigin : Transaction.t :=
  Transaction.signTransaction "key"
    (Transaction.new (Some EmptyString) "merchant" 50%float 1%float 1).

Definition emptyOriginPending : t := exec (createTransaction emptyOrigin) genesis.

Definition emptyOriginMined : t :=
  exec (minePendingTransactions 0.5%float 2 3) emptyOriginPending.

Definition emptyOriginBlock : Block.t :=
  Block.new 1 [emptyOrigin; Transaction.new None "validator2" 100%float 0%float 2]
    (Block.hash (createGenesisBlock 0)) "validator2" 3.

(** An unsigned transaction without origin that credits 2^60 to an
    address, and the state after the block that settles it: the spacing of
    doubles at 2^60 is 256. *)
Definition mint : Transaction.t :=
  Transaction.new None "whale" 0x1p+60%float 0%float 1.

Definition mintPending : t := exec (createTransaction mint) genesis.

Definition minted : t := exec (minePendingTransactions 0.5%float 2 3) mintPending.

Definition mintBlock : Block.t :=
  Block.new 1 [mint; Transaction.new None "validator2" 100%float 0%float 2]
    (Block.hash (createGenesisBlock 0)) "validator2" 3.

(** The next block, on the empty pool of [minted]. *)
Definition mintedMined : t := exec (minePendingTransactions 0.5%float 4 5) minted.

End Scenario.

(** * Properties *)

Import CosmosBlockchain Run.

Local Open Scope list_scope.

(** ** The hash and the serialization on examples *)

Example simpleHash_abc : SimpleHash.create "abc" = "17862".
Proof. reflexivity. Qed.

Example genesis_hash : Block.hash (createGenesisBlock 5) = "5bbec171".
Proof. reflexivity. Qed.

Example stringify_reward :
  Transaction.stringify (Transaction.mk None "v" 100%float 0%float 7 "1f" None)
  = String.concat EmptyString
      [ "{"; JSON.stringifyString "fromAddress"; ":null,";
        JSON.stringifyString "toAddress"; ":"; JSON.stringifyString "v"; ",";
        JSON.stringifyString "amount"; ":100,";
        JSON.stringifyString "fee"; ":0,";
        JSON.stringifyString "timestamp"; ":7,";
        JSON.stringifyString "hash"; ":"; JSON.stringifyString "1f"; ",";
        JSON.stringifyString "signature"; ":null}" ].
Proof. vm_compute. reflexivity. Qed.

(** [String(x)] on fractions, large and small numbers, and the numbers
    that are not finite. 0x1.999999999999ap-4 is the double of 0.1. *)
Example numberToString_examples :
  List.map JS.numberToString
    [ 0x1.999999999999ap-4; (0x1.999999999999ap-4 + 0x1.999999999999ap-3);
      0x1p+60; 1e21; 0x1.ac53a7e04bcdap+66; 0x1p-1074; 1.5; (-949); (-0);
      nan; infinity; neg_infinity ]%float
  = [ "0.1"; "0.30000000000000004"; "1152921504606847000"; "1e+21";
      "123456789012345680000"; "5e-324"; "1.5"; "-949"; "0";
      "NaN"; "Infinity"; "-Infinity" ].
Proof. vm_compute. reflexivity. Qed.

Example stringifyNumber_not_finite :
  List.map JSON.stringifyNumber [ nan; infinity; 100 ]%float = [ "null"; "null"; "100" ].
Proof. vm_compute. reflexivity. Qed.

Example genesis_chainInfo :
  getChainInfo Scenario.genesis = mkChainInfo 0 2400000%float 3 0.
Proof. reflexivity. Qed.

(** ** Comparisons of doubles *)

(** A number below zero is below every number that is not. *)
Lemma negative_below_nonnegative (n b : float) :
  (n <? 0)%float = true -> (0 <=? b)%float = true -> (b <? n)%float = false.
Proof.
  rewrite !ltb_spec, leb_spec.
  change (Prim2SF 0) with (S754_zero false).
  destruct (Prim2SF n) as [[] | [] | | [] ? ?], (Prim2SF b) as [[] | [] | | [] ? ?];
    cbn; congruence.
Qed.

(** ** Reading and writing balances *)

Lemma getBalance_setBalance (a b : string) (v : float) (s : t) :
  getBalance a (exec (setBalance b v) s)
  = if decide (a = b) then JS.orZero (Some v) else getBalance a s.
Proof.
  unfold exec, setBalance, modify, getBalance; cbn.
  case_decide as Hab.
  - subst. rewrite lookup_insert_eq. reflexivity.
  - rewrite lookup_insert_ne; [reflexivity | congruence].
Qed.

(** ** Settlement of one transaction *)

Section Settle.

Variables (validatorAddress : string) (transaction : Transaction.t).

Lemma settle_returns (s : t) :
  settle validatorAddress transaction s
  = (exec (settle validatorAddress transaction) s, Return tt).
Proof.
  unfold exec, settle.
  destruct (Transaction.fromAddress transaction); reflexivity.
Qed.

(** Settlement writes balances and the total supply, nothing else. *)
Lemma settle_frame (s : t) :
  let s' := exec (settle validatorAddress transaction) s in
  chain s' = chain s /\ pendingTransactions s' = pendingTransactions s
  /\ miningReward s' = miningReward s /\ validators s' = validators s
  /\ stakingPool s' = stakingPool s.
Proof.
  unfold exec, settle.
  destruct (Transaction.fromAddress transaction); cbn; auto.
Qed.


Lemma settle_reward_totalSupply (s : t) :
  Transaction.fromAddress transaction = None ->
  totalSupply (exec (settle validatorAddress transaction) s)
  = (totalSupply s + Transaction.amount transaction)%float.
Proof. intros Hfrom. unfold exec, settle. rewrite Hfrom. reflexivity. Qed.


Lemma settle_reward_exec (s : t) :
  Transaction.fromAddress transaction = None ->
  exec (settle validatorAddress transaction) s
  = let s1 :=
      exec (setBalance (Transaction.toAddress transaction)
              (getBalance (Transaction.toAddress transaction) s
               + Transaction.amount transaction)%float) s in
    set_totalSupply (totalSupply s1 + Transaction.amount transaction)%float s1.
Proof. intros Hfrom. unfold exec, settle. rewrite Hfrom. reflexivity. Qed.


Lemma settle_reward_balance (a : string) (s : t) :
  Transaction.fromAddress transaction = None ->
  getBalance a (exec (settle validatorAddress transaction) s)
  = if decide (a = Transaction.toAddress transaction)
    then JS.orZero (Some (getBalance (Transaction.toAddress transaction) s
                          + Transaction.amount transaction)%float)
    else getBalance a s.
Proof.
  intros Hfrom. rewrite (settle_reward_exec s Hfrom). cbv zeta.
  change (getBalance a (set_totalSupply ?x ?y)) with (getBalance a y).
  apply getBalance_setBalance.
Qed.

End Settle.
(** ** The settlement loop *)

Lemma forEach_settle (validatorAddress : string) (l : list Transaction.t) (s : t) :
  forEach l (settle validatorAddress) s = (settleAll validatorAddress l s, Return tt).
Proof.
  unfold settleAll, exec. revert s.
  induction l as [| tx l IH]; intros s; [reflexivity |].
  cbn [forEach]. unfold bind. rewrite settle_returns. apply IH.
Qed.

Lemma settleAll_nil (validatorAddress : string) (s : t) :
  settleAll validatorAddress [] s = s.
Proof. reflexivity. Qed.

Lemma settleAll_cons (validatorAddress : string) (tx : Transaction.t)
    (l : list Transaction.t) (s : t) :
  settleAll validatorAddress (tx :: l) s
  = settleAll validatorAddress l (exec (settle validatorAddress tx) s).
Proof.
  unfold settleAll, exec at 1. cbn [forEach]. unfold bind at 1.
  rewrite settle_returns. reflexivity.
Qed.


Lemma settleAll_frame (validatorAddress : string) (l : list Transaction.t) (s : t) :
  let s' := settleAll validatorAddress l s in
  chain s' = chain s /\ pendingTransactions s' = pendingTransactions s
  /\ miningReward s' = miningReward s /\ validators s' = validators s
  /\ stakingPool s' = stakingPool s.
Proof.
  cbv zeta. revert s. induction l as [| tx l IH]; intros s; [cbn; auto |].
  rewrite settleAll_cons.
  destruct (IH (exec (settle validatorAddress tx) s)) as (-> & -> & -> & -> & ->).
  apply settle_frame.
Qed.

(** ** Validator selection *)

Lemma walk_In (random currentSum : float) (l : list (nat * Validator.t))
    (v : nat * Validator.t) :
  walk random currentSum l = Some v -> In v l.
Proof.
  revert currentSum. induction l as [| x l IH]; intros currentSum; cbn; [discriminate |].
  destruct (_ <=? _)%float; [intros [= ->]; auto | eauto].
Qed.

(** [selectValidator] reads the state and leaves it as it is. *)
Lemma selectValidator_state (rand : float) (s : t) : exec (selectValidator rand) s = s.
Proof.
  unfold exec, selectValidator, bind, gets.
  destruct (activeValidators s); [reflexivity |].
  destruct (walk _ _ _); reflexivity.
Qed.

Lemma selectValidator_none (rand : float) (s : t) :
  activeValidators s = [] -> selectValidator rand s = (s, Throw NoActiveValidators).
Proof. intros H. unfold selectValidator, bind, gets. rewrite H. reflexivity. Qed.

(** With an active validator the selection returns one of them. *)
Lemma selectValidator_some (rand : float) (s : t) :
  activeValidators s <> [] ->
  exists v, selectValidator rand s = (s, Return v) /\ In v (activeValidators s).
Proof.
  intros H. unfold selectValidator, bind, gets.
  destruct (activeValidators s) as [| first rest] eqn:Hact; [congruence |].
  destruct (walk _ _ _) as [v |] eqn:Hwalk.
  - exists v. split; [reflexivity |]. eapply walk_In, Hwalk.
  - exists first. split; [reflexivity | left; reflexivity].
Qed.

(** ** Block production, step by step *)

Lemma minePendingTransactions_throws (rand : float) (nowTx nowBlock : Z) (s : t) :
  activeValidators s = [] ->
  minePendingTransactions rand nowTx nowBlock s = (s, Throw NoActiveValidators).
Proof.
  intros H. unfold minePendingTransactions, bind at 1.
  rewrite (selectValidator_none rand s H). reflexivity.
Qed.

Lemma minePendingTransactions_run (rand : float) (nowTx nowBlock : Z) (s : t)
    (validator : nat * Validator.t) (latest : Block.t) :
  selectValidator rand s = (s, Return validator) ->
  getLatestBlock s = Some latest ->
  let rewardTransaction :=
    Transaction.new None (Validator.address validator.2) (miningReward s) 0%float nowTx in
  let pushed :=
    set_pendingTransactions (pendingTransactions s ++ [rewardTransaction]) s in
  let validTransactions :=
    List.filter (fun tx => isTransactionValid tx pushed) (pendingTransactions pushed) in
  let block :=
    Block.new (Z.of_nat (List.length (chain s))) validTransactions (Block.hash latest)
      (Validator.address validator.2) nowBlock in
  let settled := settleAll (Validator.address validator.2) validTransactions pushed in
  minePendingTransactions rand nowTx nowBlock s
  = (set_pendingTransactions []
       (set_validators
          (OMap.updateAt validator.1 Validator.incrTotalBlocks (validators settled))
          (set_chain (chain settled ++ [block]) settled)),
     Return block).
Proof.
  intros Hsel Hlatest. cbv zeta.
  unfold minePendingTransactions, bind at 1. rewrite Hsel.
  unfold bind at 1, gets at 1. unfold bind at 1, modify at 1.
  unfold bind at 1, gets at 1. unfold bind at 1, gets at 1.
  unfold bind at 1, gets at 1.
  change (getLatestBlock (set_pendingTransactions ?p s)) with (getLatestBlock s).
  rewrite Hlatest.
  unfold bind at 1. rewrite forEach_settle.
  reflexivity.
Qed.

(** ** The filter of [selectValidator] *)

Lemma filter_none {A : Type} (P : A -> bool) (l : list A) :
  (forall j y, l !! j = Some y -> P y = false) -> List.filter P l = [].
Proof.
  induction l as [| y l IH]; intros Hall; [reflexivity |].
  cbn. rewrite (Hall 0%nat y eq_refl).
  apply IH. intros j z Hj. apply (Hall (S j) z Hj).
Qed.

Lemma filter_unique {A : Type} (P : A -> bool) (l : list A) (i : nat) (x : A) :
  l !! i = Some x -> P x = true ->
  (forall j y, j <> i -> l !! j = Some y -> P y = false) ->
  List.filter P l = [x].
Proof.
  revert i. induction l as [| y l IH]; intros i Hi Hx Hothers; [discriminate |].
  destruct i as [| i]; cbn in Hi.
  - injection Hi as ->. cbn. rewrite Hx. f_equal.
    apply filter_none. intros j z Hj. apply (Hothers (S j) z); [lia | exact Hj].
  - cbn. rewrite (Hothers 0%nat y); [| lia | reflexivity].
    apply (IH i Hi Hx). intros j z Hne Hj. apply (Hothers (S j) z); [lia | exact Hj].
Qed.

Lemma values_lookup {V : Type} (m : list (string * V)) (j : nat) (y : nat * V) :
  OMap.values m !! j = Some y -> exists key, m !! j = Some (key, y.2) /\ y.1 = j.
Proof.
  unfold OMap.values. rewrite list_lookup_imap.
  destruct (m !! j) as [[key v] |]; cbn; [| discriminate].
  intros [= <-]. exists key. auto.
Qed.

Lemma eligible_true (v : Validator.t) :
  Validator.isActive v && (0 <? Validator.stake v)%float = true
  <-> Validator.isActive v = true /\ (0 <? Validator.stake v)%float = true.
Proof. apply andb_true_iff. Qed.

Lemma activeValidators_none (s : t) :
  (forall i key v, validators s !! i = Some (key, v) ->
     ~ (Validator.isActive v = true /\ (0 <? Validator.stake v)%float = true)) ->
  activeValidators s = [].
Proof.
  intros Hall. unfold activeValidators. apply filter_none.
  intros j y Hj. destruct (values_lookup _ _ _ Hj) as (key & Hkey & _).
  apply not_true_is_false. rewrite eligible_true. exact (Hall j key y.2 Hkey).
Qed.

Lemma activeValidators_single (s : t) (i : nat) (key : string) (v : Validator.t) :
  validators s !! i = Some (key, v) ->
  Validator.isActive v = true -> (0 <? Validator.stake v)%float = true ->
  (forall j key' v', j <> i -> validators s !! j = Some (key', v') ->
     ~ (Validator.isActive v' = true /\ (0 <? Validator.stake v')%float = true)) ->
  activeValidators s = [(i, v)].
Proof.
  intros Hi Hactive Hstake Hothers. unfold activeValidators.
  apply (filter_unique _ _ i).
  - unfold OMap.values. rewrite list_lookup_imap, Hi. reflexivity.
  - apply eligible_true. auto.
  - intros j y Hne Hj. destruct (values_lookup _ _ _ Hj) as (key' & Hkey & _).
    apply not_true_is_false. rewrite eligible_true. exact (Hothers j key' y.2 Hne Hkey).
Qed.

(** ** Submission *)

Lemma createTransaction_run (transaction : Transaction.t) (s : t) :
  createTransaction transaction s
  = if Transaction.isValid transaction
    then (set_pendingTransactions (pendingTransactions s ++ [transaction]) s, Return tt)
    else (s, Throw UnauthorizedTransaction).
Proof. unfold createTransaction. destruct (Transaction.isValid transaction); reflexivity. Qed.

(** C8. [createTransaction] throws the invalid-transaction error exactly
    when the transaction has an origin and no signature, and leaves the
    state as it was; in every other case it appends the transaction to the
    pending pool and returns. No balance is read: with any other balances
    the call does the same and leaves those balances. *)
Theorem createTransaction_spec (transaction : Transaction.t) (s : t) :
  createTransaction transaction s
  = match Transaction.fromAddress transaction, Transaction.signature transaction with
    | Some _, None => (s, Throw UnauthorizedTransaction)
    | _, _ =>
        (set_pendingTransactions (pendingTransactions s ++ [transaction]) s, Return tt)
    end
  /\ ((exists e, (createTransaction transaction s).2 = Throw e)
      <-> Transaction.fromAddress transaction <> None
          /\ Transaction.signature transaction = None)
  /\ (forall b : gmap string float,
        createTransaction transaction (set_balances b s)
        = (set_balances b (createTransaction transaction s).1,
           (createTransaction transaction s).2)).
Proof.
  split; [| split].
  - rewrite createTransaction_run. unfold Transaction.isValid.
    destruct (Transaction.fromAddress transaction), (Transaction.signature transaction);
      reflexivity.
  - rewrite createTransaction_run. unfold Transaction.isValid.
    destruct (Transaction.fromAddress transaction) as [origin |],
      (Transaction.signature transaction) as [sig |]; cbn.
    + split; [intros [e [=]] | intros [_ [=]]].
    + split; [auto | eauto].
    + split; [intros [e [=]] | intros [[] _]; reflexivity].
    + split; [intros [e [=]] | intros [[] _]; reflexivity].
  - intros b. rewrite !createTransaction_run.
    destruct (Transaction.isValid transaction); reflexivity.
Qed.

(** ** Validator selection with one eligible validator *)

(** C7. When exactly one validator is active with a positive stake,
    [selectValidator] returns that validator, for every value of
    [Math.random()]: either the loop returns it, or the loop ends and the
    first (and only) active validator is returned. *)
Theorem selectValidator_single (rand : float) (s : t) (i : nat) (key : string)
    (v : Validator.t) :
  validators s !! i = Some (key, v) ->
  Validator.isActive v = true -> (0 <? Validator.stake v)%float = true ->
  (forall j key' v', j <> i -> validators s !! j = Some (key', v') ->
     ~ (Validator.isActive v' = true /\ (0 <? Validator.stake v')%float = true)) ->
  selectValidator rand s = (s, Return (i, v)).
Proof.
  intros Hi Hactive Hstake Hothers.
  unfold selectValidator, bind, gets.
  rewrite (activeValidators_single s i key v Hi Hactive Hstake Hothers).
  cbn [walk]. destruct (_ <=? _)%float; reflexivity.
Qed.

(** ** Block production without an eligible validator *)

(** C4. When no validator is active with a positive stake,
    [minePendingTransactions] throws the no-active-validators error and
    the state is the one before the call: pending pool, chain, balances,
    total supply, staking pool and validators. *)
Theorem minePendingTransactions_no_validator (rand : float) (nowTx nowBlock : Z) (s : t) :
  (forall i key v, validators s !! i = Some (key, v) ->
     ~ (Validator.isActive v = true /\ (0 <? Validator.stake v)%float = true)) ->
  minePendingTransactions rand nowTx nowBlock s = (s, Throw NoActiveValidators).
Proof.
  intros Hall. apply minePendingTransactions_throws, activeValidators_none, Hall.
Qed.

(** A witness of C7: validator2 is the one eligible validator of three. *)
Lemma selectValidator_single_witness :
  selectValidator 0.25%float Scenario.oneActive
  = (Scenario.oneActive, Return (1%nat, Validator.mk "validator2" 800000%float true 0 0)).
Proof.
  apply (selectValidator_single 0.25%float Scenario.oneActive 1 "validator2").
  - reflexivity.
  - reflexivity.
  - reflexivity.
  - intros j key' v' Hne Hj [Hactive Hstake].
    destruct j as [| [| [| j]]]; cbn in Hj; try discriminate; try congruence.
    + injection Hj as _ <-. discriminate Hactive.
    + injection Hj as _ <-. discriminate Hstake.
Defined.

(** A witness of C4: one validator is inactive, the other has no stake. *)
Lemma minePendingTransactions_no_validator_witness :
  minePendingTransactions 0.25%float 1 2 Scenario.allInactive
  = (Scenario.allInactive, Throw NoActiveValidators).
Proof.
  apply minePendingTransactions_no_validator.
  intros j key v Hj [Hactive Hstake].
  destruct j as [| [| j]]; cbn in Hj; try discriminate.
  - injection Hj as _ <-. discriminate Hactive.
  - injection Hj as _ <-. discriminate Hstake.
Defined.

(** ** Delegation *)

Section OMapLemmas.

Context {V : Type}.

Lemma OMap_has_get (k : string) (m : list (string * V)) :
  OMap.has k m = true -> exists v, OMap.get k m = Some v.
Proof.
  unfold OMap.has, OMap.get.
  induction m as [| [k' v'] m IH]; cbn; [discriminate |].
  destruct (k' =? k)%string; cbn; eauto.
Qed.

Lemma OMap_get_update_eq (k : string) (f : V -> V) (m : list (string * V)) :
  OMap.get k (OMap.update k f m) = f <$> OMap.get k m.
Proof.
  unfold OMap.get.
  induction m as [| [k' v'] m IH]; cbn; [reflexivity |].
  destruct (k' =? k)%string eqn:E; cbn; rewrite E; cbn; [reflexivity | exact IH].
Qed.

Lemma OMap_get_update_ne (k k' : string) (f : V -> V) (m : list (string * V)) :
  k <> k' -> OMap.get k' (OMap.update k f m) = OMap.get k' m.
Proof.
  intros Hne. unfold OMap.get.
  induction m as [| [k0 v0] m IH]; cbn; [reflexivity |].
  destruct (k0 =? k)%string eqn:E; cbn.
  - apply String.eqb_eq in E. subst k0.
    destruct (String.eqb_spec k k'); [contradiction | reflexivity].
  - destruct (k0 =? k')%string; cbn; [reflexivity | exact IH].
Qed.

Lemma OMap_has_update (k k' : string) (f : V -> V) (m : list (string * V)) :
  OMap.has k' (OMap.update k f m) = OMap.has k' m.
Proof.
  unfold OMap.has.
  induction m as [| [k0 v0] m IH]; cbn; [reflexivity |].
  destruct (k0 =? k)%string; cbn; [reflexivity | rewrite IH; reflexivity].
Qed.

End OMapLemmas.

Lemma delegate_unknown (d v : string) (n : float) (s : t) :
  OMap.has v (validators s) = false -> delegate d v n s = (s, Throw UnknownValidator).
Proof. intros H. unfold delegate, bind, gets. rewrite H. reflexivity. Qed.

Lemma delegate_insufficient (d v : string) (n : float) (s : t) :
  OMap.has v (validators s) = true -> (getBalance d s <? n)%float = true ->
  delegate d v n s = (s, Throw InsufficientBalance).
Proof.
  intros H Hlt. unfold delegate, bind, gets. rewrite H. cbn.
  rewrite Hlt. reflexivity.
Qed.

Lemma delegate_run (d v : string) (n : float) (s : t) :
  OMap.has v (validators s) = true -> (getBalance d s <? n)%float = false ->
  delegate d v n s = (delegated d v n s, Return tt).
Proof.
  intros H Hge. unfold delegate, delegated, bind, gets. rewrite H. cbn.
  rewrite Hge. cbn.
  destruct (bool_decide (is_Some (stakingPool s !! d))); reflexivity.
Qed.

Lemma delegated_balance (d v a : string) (n : float) (s : t) :
  getBalance a (delegated d v n s)
  = if decide (a = d) then JS.orZero (Some (getBalance d s - n)%float) else getBalance a s.
Proof.
  rewrite <- (getBalance_setBalance a d (getBalance d s - n)%float s).
  unfold delegated, getBalance. cbv zeta.
  destruct (bool_decide _); reflexivity.
Qed.

Lemma delegated_staking (d v : string) (n : float) (s : t) :
  getStakingInfo d (delegated d v n s) !! v
  = Some (JS.orZero (getStakingInfo d s !! v) + n)%float.
Proof.
  unfold getStakingInfo, delegated. cbv zeta.
  change (stakingPool (exec (setBalance d (getBalance d s - n)%float) s))
    with (stakingPool s).
  case_bool_decide as Hpresent; cbn.
  - destruct Hpresent as [inner Hinner]. rewrite Hinner. cbn.
    rewrite !lookup_insert_eq. cbn. rewrite lookup_insert_eq. reflexivity.
  - assert (stakingPool s !! d = None) as Hnone.
    { destruct (stakingPool s !! d) eqn:E; [exfalso; apply Hpresent; eauto | reflexivity]. }
    rewrite Hnone. cbn. rewrite !lookup_insert_eq. cbn. rewrite lookup_insert_eq.
    reflexivity.
Qed.

Lemma delegated_validator (d v : string) (n : float) (s : t) :
  OMap.get v (validators (delegated d v n s))
  = Validator.increaseStake n <$> OMap.get v (validators s).
Proof.
  unfold delegated. cbv zeta. cbn [validators set_validators].
  rewrite OMap_get_update_eq. f_equal.
  destruct (bool_decide _); reflexivity.
Qed.

Lemma delegated_validator_other (d v v' : string) (n : float) (s : t) :
  v <> v' ->
  OMap.get v' (validators (delegated d v n s)) = OMap.get v' (validators s).
Proof.
  intros Hne. unfold delegated. cbv zeta. cbn [validators set_validators].
  rewrite (OMap_get_update_ne v v') by exact Hne.
  destruct (bool_decide _); reflexivity.
Qed.

(** Delegation writes one balance, one staking entry and one stake. *)
Lemma delegated_frame (d v : string) (n : float) (s : t) :
  let s' := delegated d v n s in
  chain s' = chain s /\ pendingTransactions s' = pendingTransactions s
  /\ miningReward s' = miningReward s /\ totalSupply s' = totalSupply s.
Proof.
  unfold delegated. cbv zeta. destruct (bool_decide _); cbn; auto.
Qed.

(** C3, as the code has it. [delegate] throws the unknown-validator
    error when the validator is not in the validator set, and the
    insufficient-balance error when the validator is known and
    [balance < amount] holds; in both cases the state is the one before
    the call. Otherwise it returns, and its three writes are those of the
    code's double arithmetic: the delegator's staking entry for the
    validator becomes [(entry || 0) + amount], the validator's stake
    becomes [stake + amount], and the delegator's balance becomes
    [balance - amount], each rounded as a double is. *)
Theorem delegate_spec (delegatorAddress validatorAddress : string) (amount : float)
    (s : t) :
  (OMap.has validatorAddress (validators s) = false ->
   delegate delegatorAddress validatorAddress amount s = (s, Throw UnknownValidator))
  /\ (OMap.has validatorAddress (validators s) = true ->
      (getBalance delegatorAddress s <? amount)%float = true ->
      delegate delegatorAddress validatorAddress amount s = (s, Throw InsufficientBalance))
  /\ (OMap.has validatorAddress (validators s) = true ->
      (getBalance delegatorAddress s <? amount)%float = false ->
      exists s' validator,
        delegate delegatorAddress validatorAddress amount s = (s', Return tt)
        /\ getStakingInfo delegatorAddress s' !! validatorAddress
           = Some (JS.orZero (getStakingInfo delegatorAddress s !! validatorAddress)
                   + amount)%float
        /\ OMap.get validatorAddress (validators s) = Some validator
        /\ Validator.stake <$> OMap.get validatorAddress (validators s')
           = Some (Validator.stake validator + amount)%float
        /\ getBalance delegatorAddress s'
           = JS.orZero (Some (getBalance delegatorAddress s - amount)%float)).
Proof.
  split; [apply delegate_unknown |]. split; [apply delegate_insufficient |].
  intros Hknown Hge.
  destruct (OMap_has_get _ _ Hknown) as [validator Hget].
  exists (delegated delegatorAddress validatorAddress amount s), validator.
  split; [apply delegate_run; assumption |].
  split; [apply delegated_staking |].
  split; [exact Hget |].
  split.
  - rewrite delegated_validator, Hget. reflexivity.
  - rewrite delegated_balance. case_decide; congruence.
Qed.

(** A witness of C3, on the three paths: a funded wallet delegates 100 to
    validator1, delegates to a validator that does not exist, and
    delegates more than it has. *)
Lemma delegate_spec_witness :
  (exists s' validator,
     delegate "17862" "validator1" 100%float Scenario.funded = (s', Return tt)
     /\ getStakingInfo "17862" s' !! "validator1"
        = Some (JS.orZero (getStakingInfo "17862" Scenario.funded !! "validator1")
                + 100)%float
     /\ OMap.get "validator1" (validators Scenario.funded) = Some validator
     /\ Validator.stake <$> OMap.get "validator1" (validators s')
        = Some (Validator.stake validator + 100)%float
     /\ getBalance "17862" s'
        = JS.orZero (Some (getBalance "17862" Scenario.funded - 100)%float))
  /\ delegate "17862" "unknownValidator" 10%float Scenario.funded
     = (Scenario.funded, Throw UnknownValidator)
  /\ delegate "17862" "validator1" 1001%float Scenario.funded
     = (Scenario.funded, Throw InsufficientBalance).
Proof.
  split; [| split].
  - apply (proj2 (proj2 (delegate_spec "17862" "validator1" 100%float Scenario.funded)));
      reflexivity.
  - apply (proj1 (delegate_spec "17862" "unknownValidator" 10%float Scenario.funded)).
    reflexivity.
  - apply (proj1 (proj2 (delegate_spec "17862" "validator1" 1001%float Scenario.funded)));
      reflexivity.
Defined.

Example delegate_scenario :
  let s' := exec (delegate "17862" "validator1" 100%float) Scenario.funded in
  getBalance "17862" s' = 900%float
  /\ Validator.stake <$> OMap.get "validator1" (validators s') = Some 1000100%float
  /\ getStakingInfo "17862" s' !! "validator1" = Some 100%float.
Proof. repeat split; vm_compute; reflexivity. Qed.

(** C3 as stated fails where doubles round. The address whale holds
    2^60, where the spacing of doubles is 256, and delegates 1: the call
    returns, the stake and the staking entry grow by 1, and the balance
    stays at 2^60. *)
Lemma delegate_not_exact :
  ~ (forall (d v : string) (n : float) (s s' : t) (validator validator' : Validator.t),
       delegate d v n s = (s', Return tt) ->
       OMap.get v (validators s) = Some validator ->
       OMap.get v (validators s') = Some validator' ->
       exactDifference (JS.orZero (getStakingInfo d s' !! v))
         (JS.orZero (getStakingInfo d s !! v)) [n]
       /\ exactDifference (Validator.stake validator') (Validator.stake validator) [n]
       /\ exactDifference (getBalance d s) (getBalance d s') [n]).
Proof.
  intros Hclaim.
  destruct (Hclaim "whale" "validator1" 1%float Scenario.minted
              (exec (delegate "whale" "validator1" 1%float) Scenario.minted)
              (Validator.mk "validator1" 1000000%float true 0 0)
              (Validator.mk "validator1" 1000001%float true 0 0))
    as (_ & _ & Hbalance).
  - vm_compute. reflexivity.
  - vm_compute. reflexivity.
  - vm_compute. reflexivity.
  - vm_compute in Hbalance. discriminate.
Qed.

Example delegate_rounding :
  let s' := exec (delegate "whale" "validator1" 1%float) Scenario.minted in
  getBalance "whale" Scenario.minted = 0x1p+60%float
  /\ getBalance "whale" s' = 0x1p+60%float
  /\ Validator.stake <$> OMap.get "validator1" (validators s') = Some 1000001%float
  /\ getStakingInfo "whale" s' !! "validator1" = Some 1%float.
Proof. repeat split; vm_compute; reflexivity. Qed.

(** The double of 0.1 delegated from 1000 leaves the double nearest to
    999.9, which is not 1000 minus that double. *)
Example delegate_fraction :
  let s' := exec (delegate "17862" "validator1" 0x1.999999999999ap-4%float) Scenario.funded in
  getBalance "17862" s' = 0x1.f3f3333333333p+9%float
  /\ ~ exactDifference (getBalance "17862" Scenario.funded) (getBalance "17862" s')
         [0x1.999999999999ap-4%float].
Proof.
  split; [vm_compute; reflexivity |].
  vm_compute. discriminate.
Qed.

(** C9, as the code has it. With an amount below zero, a known
    validator and a delegator whose balance is not below zero, the check
    [balance < amount] does not trigger and [delegate] returns; its writes
    are those of a delegation of that amount: the balance becomes
    [balance - amount], the stake [stake + amount] and the staking entry
    [(entry || 0) + amount], in double arithmetic, so the balance moves up
    and the stake and the entry move down by the absolute amount up to
    rounding. *)
Theorem delegate_negative (delegatorAddress validatorAddress : string) (amount : float)
    (s : t) :
  (amount <? 0)%float = true ->
  OMap.has validatorAddress (validators s) = true ->
  (0 <=? getBalance delegatorAddress s)%float = true ->
  exists s' validator,
    delegate delegatorAddress validatorAddress amount s = (s', Return tt)
    /\ getBalance delegatorAddress s'
       = JS.orZero (Some (getBalance delegatorAddress s - amount)%float)
    /\ OMap.get validatorAddress (validators s) = Some validator
    /\ Validator.stake <$> OMap.get validatorAddress (validators s')
       = Some (Validator.stake validator + amount)%float
    /\ getStakingInfo delegatorAddress s' !! validatorAddress
       = Some (JS.orZero (getStakingInfo delegatorAddress s !! validatorAddress)
               + amount)%float.
Proof.
  intros Hneg Hknown Hbalance.
  destruct (OMap_has_get _ _ Hknown) as [validator Hget].
  exists (delegated delegatorAddress validatorAddress amount s), validator.
  split.
  { apply delegate_run; [assumption |].
    apply negative_below_nonnegative; assumption. }
  split; [rewrite delegated_balance; case_decide; [reflexivity | congruence] |].
  split; [exact Hget |].
  split.
  - rewrite delegated_validator, Hget. reflexivity.
  - apply delegated_staking.
Qed.

(** A witness of C9: validator1 delegates -5 to validator2 at genesis. *)
Lemma delegate_negative_witness :
  exists s' validator,
    delegate "validator1" "validator2" (-5)%float Scenario.genesis = (s', Return tt)
    /\ getBalance "validator1" s'
       = JS.orZero (Some (getBalance "validator1" Scenario.genesis - (-5))%float)
    /\ OMap.get "validator2" (validators Scenario.genesis) = Some validator
    /\ Validator.stake <$> OMap.get "validator2" (validators s')
       = Some (Validator.stake validator + (-5))%float
    /\ getStakingInfo "validator1" s' !! "validator2"
       = Some (JS.orZero (getStakingInfo "validator1" Scenario.genesis !! "validator2")
               + (-5))%float.
Proof.
  apply (delegate_negative "validator1" "validator2" (-5)%float Scenario.genesis);
    reflexivity.
Defined.

(** The reversed delegation leaves a negative staking entry. *)
Example delegate_negative_entry :
  let s' := exec (delegate "validator1" "validator2" (-5)%float) Scenario.genesis in
  getStakingInfo "validator1" s' !! "validator2" = Some (-5)%float
  /\ getBalance "validator1" s' = 1000005%float
  /\ Validator.stake <$> OMap.get "validator2" (validators s') = Some 799995%float.
Proof. repeat split; vm_compute; reflexivity. Qed.

(** The balance the claim supposes is needed: validator1, overdrawn by the
    two transfers of [Scenario.doubleSpendMined], cannot delegate -5. *)
Example delegate_negative_overdrawn :
  (delegate "validator1" "validator2" (-5)%float Scenario.doubleSpendMined).2
  = Throw InsufficientBalance.
Proof. vm_compute. reflexivity. Qed.

(** C9 as stated fails where doubles round: whale, with 2^60, delegates
    -1; the stake and the entry fall by 1 and the balance stays at
    2^60. *)
Lemma delegate_negative_not_exact :
  ~ (forall (d v : string) (n : float) (s s' : t) (validator validator' : Validator.t),
       (n <? 0)%float = true ->
       (0 <=? getBalance d s)%float = true ->
       delegate d v n s = (s', Return tt) ->
       OMap.get v (validators s) = Some validator ->
       OMap.get v (validators s') = Some validator' ->
       exactDifference (getBalance d s') (getBalance d s) [(- n)%float]
       /\ exactDifference (Validator.stake validator) (Validator.stake validator')
            [(- n)%float]
       /\ exactDifference (JS.orZero (getStakingInfo d s !! v))
            (JS.orZero (getStakingInfo d s' !! v)) [(- n)%float]).
Proof.
  intros Hclaim.
  destruct (Hclaim "whale" "validator1" (-1)%float Scenario.minted
              (exec (delegate "whale" "validator1" (-1)%float) Scenario.minted)
              (Validator.mk "validator1" 1000000%float true 0 0)
              (Validator.mk "validator1" 999999%float true 0 0))
    as (Hbalance & _).
  - reflexivity.
  - vm_compute. reflexivity.
  - vm_compute. reflexivity.
  - vm_compute. reflexivity.
  - vm_compute. reflexivity.
  - vm_compute in Hbalance. discriminate.
Qed.

(** ** Block production on an empty pending pool *)

Lemma activeValidators_some (s : t) (i : nat) (key : string) (v : Validator.t) :
  validators s !! i = Some (key, v) ->
  Validator.isActive v = true -> (0 <? Validator.stake v)%float = true ->
  activeValidators s <> [].
Proof.
  intros Hi Hactive Hstake Hnone.
  assert (In (i, v) (activeValidators s)) as Hin; [| rewrite Hnone in Hin; exact Hin].
  unfold activeValidators. apply List.filter_In. split.
  - apply list_elem_of_In, list_elem_of_lookup. exists i.
    unfold OMap.values. rewrite list_lookup_imap, Hi. reflexivity.
  - apply eligible_true. auto.
Qed.

Lemma getLatestBlock_some (s : t) :
  chain s <> [] -> exists latest, getLatestBlock s = Some latest.
Proof.
  unfold getLatestBlock. intros Hne.
  destruct (last (chain s)) as [latest |] eqn:E; [eauto |].
  apply last_None in E. contradiction.
Qed.

(** C6, as the code has it. On an empty pending pool, with a validator
    that is active and has a positive stake, and a chain that is not empty
    (as every constructed chain is), [minePendingTransactions] returns a
    block whose only transaction is the reward: no origin, the selected
    validator as destination, [miningReward] as amount, fee 0. Its
    settlement sets the total supply to [totalSupply + miningReward] and
    the validator's balance to [balance + miningReward], both in double
    arithmetic, writes no other balance, and the pending pool is empty
    afterwards. *)
Theorem minePendingTransactions_empty_pool (rand : float) (nowTx nowBlock : Z) (s : t)
    (i : nat) (key : string) (v : Validator.t) :
  pendingTransactions s = [] ->
  validators s !! i = Some (key, v) ->
  Validator.isActive v = true -> (0 <? Validator.stake v)%float = true ->
  chain s <> [] ->
  exists s' block validator reward,
    selectValidator rand s = (s, Return validator)
    /\ minePendingTransactions rand nowTx nowBlock s = (s', Return block)
    /\ Block.transactions block = [reward]
    /\ Transaction.fromAddress reward = None
    /\ Transaction.toAddress reward = Validator.address validator.2
    /\ Transaction.amount reward = miningReward s
    /\ Transaction.fee reward = 0%float
    /\ totalSupply s' = (totalSupply s + miningReward s)%float
    /\ getBalance (Validator.address validator.2) s'
       = JS.orZero (Some (getBalance (Validator.address validator.2) s
                          + miningReward s)%float)
    /\ (forall a, a <> Validator.address validator.2 -> getBalance a s' = getBalance a s)
    /\ pendingTransactions s' = [].
Proof.
  intros Hpending Hi Hactive Hstake Hchain.
  destruct (selectValidator_some rand s (activeValidators_some s i key v Hi Hactive Hstake))
    as (validator & Hsel & _).
  destruct (getLatestBlock_some s Hchain) as [latest Hlatest].
  pose proof (minePendingTransactions_run rand nowTx nowBlock s validator latest
                Hsel Hlatest) as Hrun.
  cbv zeta in Hrun. cbn [pendingTransactions set_pendingTransactions] in Hrun.
  rewrite Hpending in Hrun. cbn [app List.filter] in Hrun.
  change (isTransactionValid (Transaction.new None ?a ?b ?c ?d) ?st) with true in Hrun.
  cbn iota in Hrun.
  set (reward :=
         Transaction.new None (Validator.address validator.2) (miningReward s) 0%float nowTx)
    in Hrun.
  rewrite settleAll_cons, settleAll_nil in Hrun.
  eexists _, _, validator, reward.
  split; [exact Hsel |]. split; [exact Hrun |].
  split; [reflexivity |]. split; [reflexivity |]. split; [reflexivity |].
  split; [reflexivity |]. split; [reflexivity |].
  split; [| split; [| split]].
  - cbn [totalSupply set_pendingTransactions set_validators set_chain].
    rewrite settle_reward_totalSupply by reflexivity. reflexivity.
  - change (getBalance ?a (set_pendingTransactions ?p (set_validators ?w (set_chain ?c ?st))))
      with (getBalance a st).
    rewrite settle_reward_balance by reflexivity.
    change (getBalance ?a (set_pendingTransactions ?p s)) with (getBalance a s).
    cbn [Transaction.toAddress Transaction.amount reward Transaction.new].
    case_decide; [reflexivity | contradiction].
  - intros a Ha.
    change (getBalance ?a (set_pendingTransactions ?p (set_validators ?w (set_chain ?c ?st))))
      with (getBalance a st).
    rewrite settle_reward_balance by reflexivity.
    change (getBalance ?a (set_pendingTransactions ?p s)) with (getBalance a s).
    cbn [Transaction.toAddress Transaction.amount reward Transaction.new].
    case_decide; [contradiction | reflexivity].
  - reflexivity.
Qed.

(** A witness of C6: the first block after genesis. *)
Lemma minePendingTransactions_empty_pool_witness :
  exists s' block validator reward,
    selectValidator 0.5%float Scenario.genesis = (Scenario.genesis, Return validator)
    /\ minePendingTransactions 0.5%float 1 2 Scenario.genesis = (s', Return block)
    /\ Block.transactions block = [reward]
    /\ Transaction.fromAddress reward = None
    /\ Transaction.toAddress reward = Validator.address validator.2
    /\ Transaction.amount reward = miningReward Scenario.genesis
    /\ Transaction.fee reward = 0%float
    /\ totalSupply s' = (totalSupply Scenario.genesis + miningReward Scenario.genesis)%float
    /\ getBalance (Validator.address validator.2) s'
       = JS.orZero (Some (getBalance (Validator.address validator.2) Scenario.genesis
                          + miningReward Scenario.genesis)%float)
    /\ (forall a, a <> Validator.address validator.2 ->
          getBalance a s' = getBalance a Scenario.genesis)
    /\ pendingTransactions s' = [].
Proof.
  apply (minePendingTransactions_empty_pool 0.5%float 1 2 Scenario.genesis
           0 "validator1" (Validator.new "validator1" 1000000%float)).
  - reflexivity.
  - reflexivity.
  - reflexivity.
  - reflexivity.
  - discriminate.
Defined.

Example first_block :
  let s' := exec (minePendingTransactions 0.5%float 1 2) Scenario.genesis in
  totalSupply s' = 2400100%float /\ getBalance "validator2" s' = 800100%float
  /\ Validator.totalBlocks <$> OMap.get "validator2" (validators s') = Some 1
  /\ getChainInfo s' = mkChainInfo 1 2400100%float 3 0.
Proof. repeat split; vm_compute; reflexivity. Qed.

Lemma minted_run :
  minePendingTransactions 0.5%float 2 3 Scenario.mintPending
  = (Scenario.minted, Return Scenario.mintBlock).
Proof. vm_compute. reflexivity. Qed.

Lemma minted_reachable : reachable Scenario.minted.
Proof.
  apply (reachable_step Scenario.mintPending).
  - apply (reachable_step Scenario.genesis);
      [apply reachable_constructor | apply step_createTransaction].
  - apply step_minePendingTransactions; reflexivity.
Qed.

(** C6 as stated fails where doubles round. In the reachable state
    [Scenario.minted] the total supply is 2^60 + 2400000, where the spacing
    of doubles is 256, and the pending pool is empty: the next block holds
    the reward of 100 alone and the total supply stays as it is. *)
Lemma reward_not_exact :
  ~ (forall (rand : float) (nowTx nowBlock : Z) (s s' : t) (block : Block.t),
       reachable s ->
       pendingTransactions s = [] ->
       minePendingTransactions rand nowTx nowBlock s = (s', Return block) ->
       exactDifference (totalSupply s') (totalSupply s) [miningReward s]
       /\ exactDifference (getBalance (Block.validator block) s')
            (getBalance (Block.validator block) s) [miningReward s]).
Proof.
  intros Hclaim.
  destruct (Hclaim 0.5%float 4 5 Scenario.minted Scenario.mintedMined
              (Block.new 2 [Transaction.new None "validator2" 100%float 0%float 4]
                 (Block.hash Scenario.mintBlock) "validator2" 5)
              minted_reachable) as (Hsupply & _).
  - reflexivity.
  - vm_compute. reflexivity.
  - vm_compute in Hsupply. discriminate.
Qed.

Example reward_rounding :
  totalSupply Scenario.minted = (0x1p+60 + 2400000)%float
  /\ pendingTransactions Scenario.minted = []
  /\ totalSupply Scenario.mintedMined = totalSupply Scenario.minted
  /\ getBalance "validator2" Scenario.mintedMined = 800200%float.
Proof. repeat split; vm_compute; reflexivity. Qed.
(** ** The chain *)

Lemma minePendingTransactions_typeError (rand : float) (nowTx nowBlock : Z) (s : t)
    (validator : nat * Validator.t) :
  selectValidator rand s = (s, Return validator) ->
  getLatestBlock s = None ->
  let rewardTransaction :=
    Transaction.new None (Validator.address validator.2) (miningReward s) 0%float nowTx in
  minePendingTransactions rand nowTx nowBlock s
  = (set_pendingTransactions (pendingTransactions s ++ [rewardTransaction]) s,
     Throw TypeError).
Proof.
  intros Hsel Hlatest. cbv zeta.
  unfold minePendingTransactions, bind at 1. rewrite Hsel.
  unfold bind at 1, gets at 1. unfold bind at 1, modify at 1.
  unfold bind at 1, gets at 1. unfold bind at 1, gets at 1.
  unfold bind at 1, gets at 1.
  change (getLatestBlock (set_pendingTransactions ?p s)) with (getLatestBlock s).
  rewrite Hlatest. reflexivity.
Qed.

(** A call of [minePendingTransactions] leaves the chain as it is or
    appends one block, built on the latest one. *)
Lemma minePendingTransactions_chain (rand : float) (nowTx nowBlock : Z) (s : t) :
  let s' := exec (minePendingTransactions rand nowTx nowBlock) s in
  chain s' = chain s
  \/ exists (latest : Block.t) (transactions : list Transaction.t) (validator : string),
       last (chain s) = Some latest
       /\ chain s'
          = chain s
            ++ [Block.new (Z.of_nat (List.length (chain s))) transactions
                  (Block.hash latest) validator nowBlock].
Proof.
  cbv zeta. unfold exec.
  destruct (activeValidators s) as [| first rest] eqn:Hact.
  - left. rewrite (minePendingTransactions_throws rand nowTx nowBlock s Hact). reflexivity.
  - destruct (selectValidator_some rand s) as (validator & Hsel & _); [congruence |].
    destruct (getLatestBlock s) as [latest |] eqn:Hlatest.
    + right. rewrite (minePendingTransactions_run _ _ _ _ _ _ Hsel Hlatest).
      cbn [fst chain set_pendingTransactions set_validators set_chain].
      destruct (settleAll_frame (Validator.address validator.2)
        (List.filter
           (fun tx => isTransactionValid tx
              (set_pendingTransactions
                 (pendingTransactions s
                  ++ [Transaction.new None (Validator.address validator.2)
                        (miningReward s) 0%float nowTx]) s))
           (pendingTransactions s
            ++ [Transaction.new None (Validator.address validator.2)
                  (miningReward s) 0%float nowTx]))
        (set_pendingTransactions
           (pendingTransactions s
            ++ [Transaction.new None (Validator.address validator.2)
                  (miningReward s) 0%float nowTx]) s)) as (Hchain & _).
      cbn [pendingTransactions set_pendingTransactions] in *.
      rewrite Hchain. cbn [chain set_pendingTransactions].
      eexists latest, _, _. split; [exact Hlatest | reflexivity].
    + left. rewrite (minePendingTransactions_typeError _ _ _ _ _ Hsel Hlatest).
      reflexivity.
Qed.

Lemma createTransaction_chain (transaction : Transaction.t) (s : t) :
  chain (exec (createTransaction transaction) s) = chain s
  /\ miningReward (exec (createTransaction transaction) s) = miningReward s.
Proof.
  unfold exec. rewrite createTransaction_run.
  destruct (Transaction.isValid transaction); auto.
Qed.

Lemma delegate_chain (d v : string) (n : float) (s : t) :
  chain (exec (delegate d v n) s) = chain s.
Proof.
  unfold exec.
  destruct (OMap.has v (validators s)) eqn:Hknown.
  - destruct (getBalance d s <? n)%float eqn:Hlt.
    + rewrite delegate_insufficient by assumption. reflexivity.
    + rewrite delegate_run by assumption. apply delegated_frame.
  - rewrite delegate_unknown by assumption. reflexivity.
Qed.

Lemma constructor_chain (now : Z) : chain (constructor now) = [createGenesisBlock now].
Proof. reflexivity. Qed.

(** What C5 says of a chain. *)
Lemma chain_invariant_append (c : list Block.t) (latest : Block.t)
    (transactions : list Transaction.t) (validator : string) (now : Z) :
  last c = Some latest ->
  (forall i block, (0 < i)%nat -> c !! i = Some block ->
     Block.index block = Z.of_nat i
     /\ exists previous, c !! (i - 1)%nat = Some previous
                         /\ Block.previousHash block = Block.hash previous) ->
  forall i block, (0 < i)%nat ->
    (c ++ [Block.new (Z.of_nat (List.length c)) transactions (Block.hash latest)
             validator now]) !! i = Some block ->
    Block.index block = Z.of_nat i
    /\ exists previous,
         (c ++ [Block.new (Z.of_nat (List.length c)) transactions (Block.hash latest)
                  validator now]) !! (i - 1)%nat = Some previous
         /\ Block.previousHash block = Block.hash previous.
Proof.
  intros Hlast Hold i block Hpos Hi.
  assert (c <> []) as Hne by (intros ->; discriminate).
  assert (0 < List.length c)%nat as Hlen by (destruct c; [congruence | cbn; lia]).
  destruct (Nat.lt_ge_cases i (List.length c)) as [Hlt | Hge].
  - rewrite lookup_app_l in Hi by exact Hlt.
    destruct (Hold i block Hpos Hi) as (Hindex & previous & Hprev & Hlink).
    split; [exact Hindex |]. exists previous.
    rewrite lookup_app_l by lia. auto.
  - rewrite lookup_app_r in Hi by exact Hge.
    destruct (i - List.length c)%nat as [| k] eqn:Hk; cbn in Hi; [| discriminate].
    injection Hi as <-. assert (i = List.length c) as -> by lia.
    split; [reflexivity |]. exists latest.
    rewrite lookup_app_l by lia.
    rewrite last_lookup in Hlast.
    replace (List.length c - 1)%nat with (pred (List.length c)) by lia.
    auto.
Qed.

Lemma step_chain (s s' : t) :
  step s s' ->
  chain s' = chain s
  \/ exists (latest : Block.t) (transactions : list Transaction.t) (validator : string)
       (now : Z),
       last (chain s) = Some latest
       /\ chain s'
          = chain s
            ++ [Block.new (Z.of_nat (List.length (chain s))) transactions
                  (Block.hash latest) validator now].
Proof.
  intros [transaction s0 | rand nowTx nowBlock s0 _ _ | d v n s0].
  - left. apply createTransaction_chain.
  - destruct (minePendingTransactions_chain rand nowTx nowBlock s0)
      as [Hsame | (latest & transactions & validator & Hlast & Happ)]; [left; exact Hsame |].
    right. exists latest, transactions, validator, nowBlock. auto.
  - left. apply delegate_chain.
Qed.

(** The chain of a constructed object starts with its genesis block and
    never loses it. *)
Lemma reachable_genesis_block (s : t) :
  reachable s -> exists now, chain s !! 0%nat = Some (createGenesisBlock now).
Proof.
  induction 1 as [now | s s' _ [now IH] Hstep].
  - exists now. reflexivity.
  - exists now.
    destruct (step_chain s s' Hstep)
      as [-> | (latest & transactions & validator & now' & _ & ->)]; [exact IH |].
    rewrite lookup_app_l; [exact IH |]. eapply lookup_lt_Some, IH.
Qed.

Lemma reachable_chain_nonempty (s : t) : reachable s -> chain s <> [].
Proof.
  intros Hreach Hnil. destruct (reachable_genesis_block s Hreach) as [now Hnow].
  rewrite Hnil in Hnow. discriminate.
Qed.

(** C5. In every state reachable from the constructor by calls of
    [createTransaction], [minePendingTransactions] and [delegate], the
    first block of the chain is a genesis block (index 0, previous hash
    0, no transactions, validator genesis), and every later block, at
    position [i], has index [i] and the hash of the block at [i - 1] as its
    previous hash. *)
Theorem chain_linked (s : t) :
  reachable s ->
  (exists genesis,
     chain s !! 0%nat = Some genesis
     /\ Block.index genesis = 0
     /\ Block.previousHash genesis = "0"
     /\ Block.transactions genesis = []
     /\ Block.validator genesis = "genesis")
  /\ (forall i block, (0 < i)%nat -> chain s !! i = Some block ->
        Block.index block = Z.of_nat i
        /\ exists previous, chain s !! (i - 1)%nat = Some previous
                            /\ Block.previousHash block = Block.hash previous).
Proof.
  intros Hreach. split.
  - destruct (reachable_genesis_block s Hreach) as [now Hnow].
    exists (createGenesisBlock now). repeat split; [exact Hnow].
  - induction Hreach as [now | s s' Hreach IH Hstep].
    + intros i block Hpos Hi. rewrite constructor_chain in Hi.
      destruct i as [| i]; [lia | discriminate].
    + destruct (step_chain s s' Hstep)
        as [-> | (latest & transactions & validator & now & Hlast & ->)]; [exact IH |].
      apply chain_invariant_append; assumption.
Qed.

(** A witness of C5: the chain after the first block. *)
Lemma chain_linked_witness :
  let s := exec (minePendingTransactions 0.5%float 1 2) Scenario.genesis in
  (exists genesis,
     chain s !! 0%nat = Some genesis
     /\ Block.index genesis = 0
     /\ Block.previousHash genesis = "0"
     /\ Block.transactions genesis = []
     /\ Block.validator genesis = "genesis")
  /\ (forall i block, (0 < i)%nat -> chain s !! i = Some block ->
        Block.index block = Z.of_nat i
        /\ exists previous, chain s !! (i - 1)%nat = Some previous
                            /\ Block.previousHash block = Block.hash previous).
Proof.
  apply (chain_linked (exec (minePendingTransactions 0.5%float 1 2) Scenario.genesis)).
  apply (reachable_step Scenario.genesis).
  - apply reachable_constructor.
  - apply step_minePendingTransactions; reflexivity.
Defined.

Example first_block_linked :
  (fun b => (Block.index b, Block.previousHash b, Block.validator b))
    <$> chain (exec (minePendingTransactions 0.5%float 1 2) Scenario.genesis) !! 1%nat
  = Some (1, Block.hash (createGenesisBlock 0), "validator2").
Proof. vm_compute. reflexivity. Qed.

(** ** Settlement inside block production *)

Lemma settle_pending (validatorAddress : string) (tx : Transaction.t)
    (p : list Transaction.t) (s : t) :
  exec (settle validatorAddress tx) (set_pendingTransactions p s)
  = set_pendingTransactions p (exec (settle validatorAddress tx) s).
Proof. unfold exec, settle. destruct (Transaction.fromAddress tx); reflexivity. Qed.

Lemma settleAll_pending (validatorAddress : string) (l p : list Transaction.t) (s : t) :
  settleAll validatorAddress l (set_pendingTransactions p s)
  = set_pendingTransactions p (settleAll validatorAddress l s).
Proof.
  revert s. induction l as [| tx l IH]; intros s; [reflexivity |].
  rewrite !settleAll_cons, settle_pending. apply IH.
Qed.


(** A call that returns a block went through every step. *)
Lemma minePendingTransactions_inv (rand : float) (nowTx nowBlock : Z) (s s' : t)
    (block : Block.t) :
  minePendingTransactions rand nowTx nowBlock s = (s', Return block) ->
  exists validator latest,
    selectValidator rand s = (s, Return validator)
    /\ getLatestBlock s = Some latest
    /\ let rewardTransaction :=
         Transaction.new None (Validator.address validator.2) (miningReward s) 0%float
           nowTx in
       let pushed :=
         set_pendingTransactions (pendingTransactions s ++ [rewardTransaction]) s in
       let validTransactions :=
         List.filter (fun tx => isTransactionValid tx pushed) (pendingTransactions pushed) in
       let settled := settleAll (Validator.address validator.2) validTransactions pushed in
       block
       = Block.new (Z.of_nat (List.length (chain s))) validTransactions (Block.hash latest)
           (Validator.address validator.2) nowBlock
       /\ s'
          = set_pendingTransactions []
              (set_validators
                 (OMap.updateAt validator.1 Validator.incrTotalBlocks (validators settled))
                 (set_chain (chain settled ++ [block]) settled)).
Proof.
  intros Hmine.
  destruct (activeValidators s) as [| first rest] eqn:Hact.
  - rewrite (minePendingTransactions_throws rand nowTx nowBlock s Hact) in Hmine.
    discriminate.
  - destruct (selectValidator_some rand s) as (validator & Hsel & _); [congruence |].
    destruct (getLatestBlock s) as [latest |] eqn:Hlatest.
    + rewrite (minePendingTransactions_run _ _ _ _ _ _ Hsel Hlatest) in Hmine.
      injection Hmine as <- <-.
      exists validator, latest. cbv zeta. auto.
    + rewrite (minePendingTransactions_typeError _ _ _ _ _ Hsel Hlatest) in Hmine.
      discriminate.
Qed.

(** The balances and the total supply a returned block leaves are those
    of settling its transactions, in order, on the state before the
    call. *)
Lemma minePendingTransactions_settled (rand : float) (nowTx nowBlock : Z) (s s' : t)
    (block : Block.t) :
  minePendingTransactions rand nowTx nowBlock s = (s', Return block) ->
  balances s'
  = balances (settleAll (Block.validator block) (Block.transactions block) s)
  /\ totalSupply s'
     = totalSupply (settleAll (Block.validator block) (Block.transactions block) s).
Proof.
  intros Hmine.
  destruct (minePendingTransactions_inv _ _ _ _ _ _ Hmine)
    as (validator & latest & _ & _ & Hblock & Hs').
  cbv zeta in Hblock, Hs'. rewrite Hs'.
  cbn [balances totalSupply set_pendingTransactions set_validators set_chain].
  rewrite settleAll_pending.
  cbn [balances totalSupply set_pendingTransactions].
  rewrite Hblock. split; reflexivity.
Qed.

Lemma minePendingTransactions_balances (rand : float) (nowTx nowBlock : Z) (s s' : t)
    (block : Block.t) :
  minePendingTransactions rand nowTx nowBlock s = (s', Return block) ->
  forall a,
    getBalance a s'
    = getBalance a (settleAll (Block.validator block) (Block.transactions block) s).
Proof.
  intros Hmine a. unfold getBalance.
  rewrite (proj1 (minePendingTransactions_settled _ _ _ _ _ _ Hmine)). reflexivity.
Qed.





Example transfer_balances :
  getBalance "17862" Scenario.transferPending = 1000%float
  /\ getBalance "17862" Scenario.transferMined = 949%float
  /\ getBalance "b" Scenario.transferMined = 50%float
  /\ getBalance "validator2" Scenario.transferMined = 800101%float
  /\ totalSupply Scenario.transferMined = 2401100%float
  /\ getChainInfo Scenario.transferMined = mkChainInfo 1 2401100%float 3 0.
Proof. repeat split; vm_compute; reflexivity. Qed.


Example selfTransfer_balances :
  getBalance "17862" Scenario.selfTransferPending = 1000%float
  /\ getBalance "17862" (settleAll "validator2" [Scenario.selfTransfer]
                           Scenario.selfTransferPending) = 999%float
  /\ getBalance "17862" Scenario.selfTransferMined = 999%float
  /\ getBalance "validator2" Scenario.selfTransferMined = 800101%float.
Proof. repeat split; vm_compute; reflexivity. Qed.

(** With distinct addresses the claim still fails on fractions: the
    doubles of 0.1 and 0.2 taken from 1000 leave 999.6999999999999, which
    is not 1000 minus their sum. *)
Example settlement_fraction :
  let tx :=
    SimpleWallet.signTransaction Scenario.wallet
      (Transaction.new (Some "17862") "b" 0x1.999999999999ap-4%float
         0x1.999999999999ap-3%float 1) in
  let s1 := exec (settle "validator2" tx) Scenario.funded in
  getBalance "17862" s1 = 0x1.f3d9999999999p+9%float
  /\ JS.numberToString (getBalance "17862" s1) = "999.6999999999999"
  /\ ~ exactDifference (getBalance "17862" Scenario.funded) (getBalance "17862" s1)
         [Transaction.amount tx; Transaction.fee tx].
Proof.
  split; [vm_compute; reflexivity |]. split; [vm_compute; reflexivity |].
  vm_compute. discriminate.
Qed.

(** ** Two transfers against one balance *)

Lemma doubleSpend_reachable : reachable Scenario.doubleSpendMined.
Proof.
  apply (reachable_step Scenario.doubleSpendPending).
  - apply (reachable_step (exec (createTransaction (Scenario.spend 1)) Scenario.genesis)).
    + apply (reachable_step Scenario.genesis);
        [apply reachable_constructor | apply step_createTransaction].
    + apply step_createTransaction.
  - apply step_minePendingTransactions; reflexivity.
Qed.

(** C2 fails on the code. From genesis, two signed transfers of 600000
    from validator1 (balance 1000000) are submitted and one block is
    produced: both pass the filter, which reads the balances before any
    settlement, both are in the block and both are settled, and validator1
    is left with a balance of -200000 in a reachable state. *)
Theorem double_spend_overdraws :
  reachable Scenario.doubleSpendMined
  /\ getBalance "validator1" Scenario.doubleSpendPending = 1000000%float
  /\ (exists block,
        minePendingTransactions 0.5%float 3 4 Scenario.doubleSpendPending
        = (Scenario.doubleSpendMined, Return block)
        /\ Block.transactions block
           = [Scenario.spend 1; Scenario.spend 2;
              Transaction.new None "validator2" 100%float 0%float 3])
  /\ getBalance "validator1" Scenario.doubleSpendMined = (-200000)%float
  /\ getBalance "merchant" Scenario.doubleSpendMined = 1200000%float.
Proof.
  split; [exact doubleSpend_reachable |].
  split; [vm_compute; reflexivity |].
  split; [| split; vm_compute; reflexivity].
  eexists. split; [vm_compute; reflexivity | vm_compute; reflexivity].
Qed.

(** ** A transaction whose origin is the empty string *)






(** In a run: the empty address goes from 0 to -51, the destination gets
    50 and the validator the fee and its reward, and the total supply
    grows by the reward only. *)
Example empty_origin_negative :
  minePendingTransactions 0.5%float 2 3 Scenario.emptyOriginPending
  = (Scenario.emptyOriginMined, Return Scenario.emptyOriginBlock)
  /\ getBalance EmptyString Scenario.emptyOriginPending = 0%float
  /\ getBalance EmptyString Scenario.emptyOriginMined = (-51)%float
  /\ getBalance "merchant" Scenario.emptyOriginMined = 50%float
  /\ getBalance "validator2" Scenario.emptyOriginMined = 800101%float
  /\ totalSupply Scenario.emptyOriginMined = 2400100%float.
Proof. repeat split; vm_compute; reflexivity. Qed.
(** ** What the constructor sets and no method changes *)

Lemma minePendingTransactions_miningReward (rand : float) (nowTx nowBlock : Z) (s : t) :
  miningReward (exec (minePendingTransactions rand nowTx nowBlock) s) = miningReward s.
Proof.
  unfold exec.
  destruct (activeValidators s) as [| first rest] eqn:Hact.
  - rewrite (minePendingTransactions_throws rand nowTx nowBlock s Hact). reflexivity.
  - destruct (selectValidator_some rand s) as (validator & Hsel & _); [congruence |].
    destruct (getLatestBlock s) as [latest |] eqn:Hlatest.
    + rewrite (minePendingTransactions_run _ _ _ _ _ _ Hsel Hlatest).
      cbn [fst miningReward set_pendingTransactions set_validators set_chain].
      rewrite settleAll_pending. cbn [miningReward set_pendingTransactions].
      apply settleAll_frame.
    + rewrite (minePendingTransactions_typeError _ _ _ _ _ Hsel Hlatest). reflexivity.
Qed.

Lemma delegate_miningReward (d v : string) (n : float) (s : t) :
  miningReward (exec (delegate d v n) s) = miningReward s.
Proof.
  unfold exec.
  destruct (OMap.has v (validators s)) eqn:Hknown.
  - destruct (getBalance d s <? n)%float eqn:Hlt.
    + rewrite delegate_insufficient by assumption. reflexivity.
    + rewrite delegate_run by assumption. apply delegated_frame.
  - rewrite delegate_unknown by assumption. reflexivity.
Qed.

Lemma reachable_miningReward (s : t) : reachable s -> miningReward s = 100%float.
Proof.
  induction 1 as [now | s s' _ IH Hstep]; [reflexivity |].
  destruct Hstep as [transaction s | rand nowTx nowBlock s _ _ | d v n s].
  - rewrite (proj2 (createTransaction_chain transaction s)). exact IH.
  - rewrite minePendingTransactions_miningReward. exact IH.
  - rewrite delegate_miningReward. exact IH.
Qed.

(** ** The two exits of [selectValidator] *)

Example selectValidator_loop_exit :
  walk (0.25 * 800000)%float 0%float (activeValidators Scenario.oneActive)
  = Some (1%nat, Validator.mk "validator2" 800000%float true 0 0).
Proof. reflexivity. Qed.

Example selectValidator_fallback_exit :
  walk (2 * 800000)%float 0%float (activeValidators Scenario.oneActive) = None
  /\ selectValidator 2%float Scenario.oneActive
     = (Scenario.oneActive,
        Return (1%nat, Validator.mk "validator2" 800000%float true 0 0)).
Proof. split; reflexivity. Qed.

Example selectValidator_genesis :
  (selectValidator 0%float Scenario.genesis).2
  = Return (0%nat, Validator.new "validator1" 1000000%float)
  /\ (selectValidator 0.5%float Scenario.genesis).2
     = Return (1%nat, Validator.new "validator2" 800000%float)
  /\ (selectValidator 0.9375%float Scenario.genesis).2
     = Return (2%nat, Validator.new "validator3" 600000%float).
Proof. repeat split; vm_compute; reflexivity. Qed.

(** * Further properties of the code *)

(** ** SimpleHash *)

Lemma toInt32_range (z : Z) : - 2 ^ 31 <= JS.toInt32 z < 2 ^ 31.
Proof.
  unfold JS.toInt32.
  pose proof (Z.mod_pos_bound (z + 2 ^ 31) (2 ^ 32) ltac:(lia)). lia.
Qed.

Lemma step_31 (h c : Z) : SimpleHash.step h c = JS.toInt32 (31 * h + c).
Proof.
  unfold SimpleHash.step. cbv zeta. rewrite Z.land_diag.
  rewrite Z.shiftl_mul_pow2 by lia.
  unfold JS.toInt32. f_equal.
  replace ((h * 2 ^ 5 + 2 ^ 31) mod 2 ^ 32 - 2 ^ 31 - h + c + 2 ^ 31)
    with ((h * 2 ^ 5 + 2 ^ 31) mod 2 ^ 32 + (c - h)) by lia.
  rewrite Zplus_mod_idemp_l. f_equal. lia.
Qed.

Lemma fold_step_range (l : list Z) (h : Z) :
  - 2 ^ 31 <= h < 2 ^ 31 -> - 2 ^ 31 <= fold_left SimpleHash.step l h < 2 ^ 31.
Proof.
  revert h. induction l as [| c l IH]; intros h Hh; [exact Hh |].
  cbn [fold_left]. apply IH. rewrite step_31. apply toInt32_range.
Qed.

Lemma fold_step_31 (l : list Z) (h : Z) :
  fold_left SimpleHash.step l h = fold_left (fun h c => JS.toInt32 (31 * h + c)) l h.
Proof.
  revert h. induction l as [| c l IH]; intros h; [reflexivity |].
  cbn [fold_left]. rewrite step_31. apply IH.
Qed.

(** X1. [SimpleHash.create] is the polynomial hash with multiplier 31
    over the character codes, wrapped to a signed 32-bit integer at every
    step: the shift, the subtraction and the bitwise and of the loop amount
    to that. The number it prints in hexadecimal is at most 2^31. *)
Theorem simpleHash_polynomial (data : string) :
  let hash := fold_left (fun h c => JS.toInt32 (31 * h + c)) (JS.charCodes data) 0 in
  SimpleHash.create data = JS.toString16 (Z.abs hash)
  /\ 0 <= Z.abs hash <= 2 ^ 31.
Proof.
  cbv zeta. split.
  - unfold SimpleHash.create. cbv zeta. rewrite fold_step_31. reflexivity.
  - rewrite <- fold_step_31.
    pose proof (fold_step_range (JS.charCodes data) 0 ltac:(lia)). lia.
Qed.

(** ** Signing and submitting *)

(** X2. A transaction signed with any private key is accepted by
    [createTransaction]: the signature is only tested for presence, never
    against the origin. Signing changes no other field. *)
Theorem signed_accepted (privateKey : string) (transaction : Transaction.t) (s : t) :
  let signed := Transaction.signTransaction privateKey transaction in
  createTransaction signed s
  = (set_pendingTransactions (pendingTransactions s ++ [signed]) s, Return tt)
  /\ Transaction.fromAddress signed = Transaction.fromAddress transaction
  /\ Transaction.toAddress signed = Transaction.toAddress transaction
  /\ Transaction.amount signed = Transaction.amount transaction
  /\ Transaction.fee signed = Transaction.fee transaction
  /\ Transaction.timestamp signed = Transaction.timestamp transaction
  /\ Transaction.hash signed = Transaction.hash transaction.
Proof.
  cbv zeta. rewrite createTransaction_run.
  unfold Transaction.signTransaction, Transaction.isValid.
  destruct (Transaction.fromAddress transaction) as [origin |] eqn:Hfrom; cbn.
  - repeat split; auto.
  - rewrite Hfrom. repeat split; auto.
Qed.

(** X3. [handleTransfer] never fails at submission, whatever the wallet's
    balance, the destination and the amounts that [parseFloat] gave,
    fractions, negative numbers and NaN included: it appends one transaction
    to the pending pool, from the wallet's address, signed, with the
    amounts given, and changes nothing else. *)
Theorem handleTransfer_appends (wallet : SimpleWallet.t) (toAddress : string)
    (amount fee : float) (now : Z) (s : t) :
  exists transaction sig,
    BlockchainApp.handleTransfer wallet toAddress amount fee now s
    = (set_pendingTransactions (pendingTransactions s ++ [transaction]) s, Return tt)
    /\ Transaction.fromAddress transaction = Some (SimpleWallet.address wallet)
    /\ Transaction.toAddress transaction = toAddress
    /\ Transaction.amount transaction = amount
    /\ Transaction.fee transaction = fee
    /\ Transaction.timestamp transaction = now
    /\ Transaction.signature transaction = Some sig.
Proof.
  unfold BlockchainApp.handleTransfer. cbv zeta.
  eexists _, _. rewrite createTransaction_run. cbn. repeat split.
Qed.

(** ** Validator selection, in general *)

Lemma activeValidators_In (s : t) (v : nat * Validator.t) :
  In v (activeValidators s) ->
  (exists key, validators s !! v.1 = Some (key, v.2))
  /\ Validator.isActive v.2 = true /\ (0 <? Validator.stake v.2)%float = true.
Proof.
  unfold activeValidators. intros Hin. apply List.filter_In in Hin as [Hin Hok].
  apply eligible_true in Hok. split; [| exact Hok].
  apply list_elem_of_In, list_elem_of_lookup in Hin as [j Hj].
  destruct (values_lookup _ _ _ Hj) as (key & Hkey & Hidx).
  exists key. rewrite Hidx. exact Hkey.
Qed.

(** X5. Whatever [Math.random()] gives, [selectValidator] either throws
    the no-active-validators error or returns a validator that is in the
    map (at the position returned), is active and has a positive stake; it
    never writes the state. *)
Theorem selectValidator_eligible (rand : float) (s : t) :
  selectValidator rand s = (s, Throw NoActiveValidators)
  \/ exists v key,
       selectValidator rand s = (s, Return v)
       /\ validators s !! v.1 = Some (key, v.2)
       /\ Validator.isActive v.2 = true
       /\ (0 <? Validator.stake v.2)%float = true.
Proof.
  destruct (activeValidators s) as [| first rest] eqn:Hact.
  - left. apply selectValidator_none, Hact.
  - right. destruct (selectValidator_some rand s) as (v & Hsel & Hin); [congruence |].
    destruct (activeValidators_In s v Hin) as ((key & Hkey) & Hactive & Hstake).
    exists v, key. auto.
Qed.




(** A total stake that is not finite shows what the hypothesis is for:
    a draw of 0 gives the product NaN, no comparison holds, and the
    fall-back returns the first active validator. *)
Example selectValidator_fallback_nan :
  let s :=
    set_validators
      [ ("validator1", Validator.mk "validator1" 1000000%float true 0 0);
        ("validator2", Validator.mk "validator2" infinity true 0 0) ]
      Scenario.genesis in
  walk (0 * sumStake (activeValidators s))%float 0%float (activeValidators s) = None
  /\ (selectValidator 0%float s).2
     = Return (0%nat, Validator.mk "validator1" 1000000%float true 0 0).
Proof. split; vm_compute; reflexivity. Qed.

(** ** Block production, in general *)

Lemma filter_app_last {A : Type} (P : A -> bool) (l : list A) (x : A) :
  P x = true -> List.filter P (l ++ [x]) = List.filter P l ++ [x].
Proof.
  intros Hx. induction l as [| y l IH]; cbn; [rewrite Hx; reflexivity |].
  destruct (P y); cbn; rewrite IH; reflexivity.
Qed.

Lemma isTransactionValid_pending (tx : Transaction.t) (p : list Transaction.t) (s : t) :
  isTransactionValid tx (set_pendingTransactions p s) = isTransactionValid tx s.
Proof. reflexivity. Qed.

(** What a call that gets past selection and finds a latest block does. *)
Lemma minePendingTransactions_success (rand : float) (nowTx nowBlock : Z) (s : t)
    (validator : nat * Validator.t) (latest : Block.t) :
  selectValidator rand s = (s, Return validator) ->
  getLatestBlock s = Some latest ->
  exists s' block,
    minePendingTransactions rand nowTx nowBlock s = (s', Return block)
    /\ Block.index block = Z.of_nat (List.length (chain s))
    /\ Block.previousHash block = Block.hash latest
    /\ Block.validator block = Validator.address validator.2
    /\ Block.timestamp block = nowBlock
    /\ Block.transactions block
       = List.filter (fun tx => isTransactionValid tx s) (pendingTransactions s)
         ++ [Transaction.new None (Validator.address validator.2) (miningReward s) 0%float nowTx]
    /\ chain s' = chain s ++ [block]
    /\ pendingTransactions s' = []
    /\ validators s' = OMap.updateAt validator.1 Validator.incrTotalBlocks (validators s)
    /\ stakingPool s' = stakingPool s
    /\ miningReward s' = miningReward s.
Proof.
  intros Hsel Hlatest.
  pose proof (minePendingTransactions_run rand nowTx nowBlock s validator latest
                Hsel Hlatest) as Hrun.
  cbv zeta in Hrun.
  set (reward := Transaction.new None (Validator.address validator.2) (miningReward s) 0%float nowTx)
    in *.
  set (pushed := set_pendingTransactions (pendingTransactions s ++ [reward]) s) in *.
  set (valid := List.filter (fun tx => isTransactionValid tx pushed)
                  (pendingTransactions pushed)) in *.
  destruct (settleAll_frame (Validator.address validator.2) valid pushed)
    as (Hc & Hp & Hm & Hv & Hsp).
  eexists _, _.
  split; [exact Hrun |].
  split; [reflexivity |]. split; [reflexivity |]. split; [reflexivity |].
  split; [reflexivity |].
  split.
  { cbn [Block.transactions Block.new]. subst valid.
    cbn [pendingTransactions pushed set_pendingTransactions].
    apply filter_app_last. reflexivity. }
  cbn [chain pendingTransactions validators stakingPool miningReward
       set_pendingTransactions set_validators set_chain].
  rewrite Hc, Hv, Hsp, Hm. repeat split.
Qed.

(** X8. On a chain that is not empty, with a validator that is active
    and has a positive stake, [minePendingTransactions] returns a block for
    every pending pool and every draw. The block has the chain's length as
    index, the latest block's hash as previous hash and the selected
    validator's address; its transactions are the pending ones that pass
    [isTransactionValid] on the state before the call, in their order,
    followed by the reward. The chain grows by that block alone, the
    pending pool is emptied, the selected validator's [totalBlocks] grows
    by one, and the staking pool and [miningReward] stay as they are. *)
Theorem minePendingTransactions_returns (rand : float) (nowTx nowBlock : Z) (s : t)
    (i : nat) (key : string) (v : Validator.t) :
  validators s !! i = Some (key, v) ->
  Validator.isActive v = true -> (0 <? Validator.stake v)%float = true ->
  chain s <> [] ->
  exists s' block validator latest,
    selectValidator rand s = (s, Return validator)
    /\ minePendingTransactions rand nowTx nowBlock s = (s', Return block)
    /\ last (chain s) = Some latest
    /\ Block.index block = Z.of_nat (List.length (chain s))
    /\ Block.previousHash block = Block.hash latest
    /\ Block.validator block = Validator.address validator.2
    /\ Block.timestamp block = nowBlock
    /\ Block.transactions block
       = List.filter (fun tx => isTransactionValid tx s) (pendingTransactions s)
         ++ [Transaction.new None (Validator.address validator.2) (miningReward s) 0%float nowTx]
    /\ chain s' = chain s ++ [block]
    /\ pendingTransactions s' = []
    /\ validators s' = OMap.updateAt validator.1 Validator.incrTotalBlocks (validators s)
    /\ stakingPool s' = stakingPool s
    /\ miningReward s' = miningReward s.
Proof.
  intros Hi Hactive Hstake Hchain.
  destruct (selectValidator_some rand s (activeValidators_some s i key v Hi Hactive Hstake))
    as (validator & Hsel & _).
  destruct (getLatestBlock_some s Hchain) as [latest Hlatest].
  destruct (minePendingTransactions_success rand nowTx nowBlock s validator latest
              Hsel Hlatest) as (s' & block & Hrun & Hrest).
  exists s', block, validator, latest.
  split; [exact Hsel |]. split; [exact Hrun |]. split; [exact Hlatest |]. exact Hrest.
Qed.

(** A witness of X8: a block on the pool with the self-transfer. *)
Lemma minePendingTransactions_returns_witness :
  exists s' block validator latest,
    selectValidator 0.5%float Scenario.selfTransferPending
    = (Scenario.selfTransferPending, Return validator)
    /\ minePendingTransactions 0.5%float 2 3 Scenario.selfTransferPending = (s', Return block)
    /\ last (chain Scenario.selfTransferPending) = Some latest
    /\ Block.index block = Z.of_nat (List.length (chain Scenario.selfTransferPending))
    /\ Block.previousHash block = Block.hash latest
    /\ Block.validator block = Validator.address validator.2
    /\ Block.timestamp block = 3
    /\ Block.transactions block
       = List.filter (fun tx => isTransactionValid tx Scenario.selfTransferPending)
           (pendingTransactions Scenario.selfTransferPending)
         ++ [Transaction.new None (Validator.address validator.2)
               (miningReward Scenario.selfTransferPending) 0%float 2]
    /\ chain s' = chain Scenario.selfTransferPending ++ [block]
    /\ pendingTransactions s' = []
    /\ validators s'
       = OMap.updateAt validator.1 Validator.incrTotalBlocks
           (validators Scenario.selfTransferPending)
    /\ stakingPool s' = stakingPool Scenario.selfTransferPending
    /\ miningReward s' = miningReward Scenario.selfTransferPending.
Proof.
  apply (minePendingTransactions_returns 0.5%float 2 3 Scenario.selfTransferPending
           0 "validator1" (Validator.new "validator1" 1000000%float)).
  - reflexivity.
  - reflexivity.
  - reflexivity.
  - discriminate.
Defined.

(** X9. A pending transaction whose origin is a non-empty address for
    which [balance >= amount + fee] is false, in the code's double
    arithmetic and on the balances before the call, is dropped by block
    production: the returned block does not contain it, the pool is
    emptied, so it is never settled, and the call debits nothing for it:
    the balances left are those of settling the block's transactions. *)
Theorem unaffordable_dropped (rand : float) (nowTx nowBlock : Z) (s s' : t)
    (block : Block.t) (tx : Transaction.t) (origin : string) :
  minePendingTransactions rand nowTx nowBlock s = (s', Return block) ->
  Transaction.fromAddress tx = Some origin ->
  origin <> EmptyString ->
  (Transaction.amount tx + Transaction.fee tx <=? getBalance origin s)%float = false ->
  ~ In tx (Block.transactions block)
  /\ pendingTransactions s' = []
  /\ (forall a,
        getBalance a s'
        = getBalance a (settleAll (Block.validator block) (Block.transactions block) s)).
Proof.
  intros Hmine Hfrom Hne Hlow.
  split; [| split].
  - destruct (minePendingTransactions_inv _ _ _ _ _ _ Hmine)
      as (validator & latest & _ & _ & Hblock & _).
    cbv zeta in Hblock. rewrite Hblock. cbn [Block.transactions Block.new].
    intros Hin. apply List.filter_In in Hin as [_ Hvalid].
    rewrite isTransactionValid_pending in Hvalid.
    unfold isTransactionValid in Hvalid. rewrite Hfrom in Hvalid.
    cbn [JS.truthy] in Hvalid.
    destruct (String.eqb_spec origin EmptyString) as [-> | _]; [congruence |].
    cbn in Hvalid. congruence.
  - destruct (minePendingTransactions_inv _ _ _ _ _ _ Hmine)
      as (validator & latest & _ & _ & _ & Hs').
    cbv zeta in Hs'. rewrite Hs'. reflexivity.
  - apply (minePendingTransactions_balances _ _ _ _ _ _ Hmine).
Qed.

Lemma overdraft_run :
  minePendingTransactions 0.5%float 2 3 Scenario.overdraftPending
  = (Scenario.overdraftMined, Return Scenario.overdraftBlock).
Proof. vm_compute. reflexivity. Qed.

(** A witness of X9: the wallet of balance 1000 submits a transfer of
    2000, which the next block leaves out. *)
Lemma unaffordable_dropped_witness :
  ~ In Scenario.overdraft (Block.transactions Scenario.overdraftBlock)
  /\ pendingTransactions Scenario.overdraftMined = []
  /\ (forall a,
        getBalance a Scenario.overdraftMined
        = getBalance a
            (settleAll (Block.validator Scenario.overdraftBlock)
               (Block.transactions Scenario.overdraftBlock) Scenario.overdraftPending)).
Proof.
  apply (unaffordable_dropped 0.5%float 2 3 Scenario.overdraftPending
           Scenario.overdraftMined Scenario.overdraftBlock Scenario.overdraft
           (SimpleWallet.address Scenario.wallet) overdraft_run).
  - reflexivity.
  - discriminate.
  - reflexivity.
Defined.

Example overdraft_balances :
  In Scenario.overdraft (pendingTransactions Scenario.overdraftPending)
  /\ getBalance "17862" Scenario.overdraftMined = 1000%float
  /\ getBalance "b" Scenario.overdraftMined = 0%float.
Proof. split; [left; reflexivity | split; vm_compute; reflexivity]. Qed.

(** The comparison is the one of doubles: with a balance of 2^53, an
    amount of 2^53 and a fee of 1 the sum rounds to 2^53, the check
    passes and the transaction is kept. *)
Example rounded_sum_affordable :
  let tx :=
    Transaction.signTransaction "key"
      (Transaction.new (Some "whale") "b" 0x1p+53%float 1%float 1) in
  let s := set_balances (<["whale" := 0x1p+53%float]> ∅) Scenario.genesis in
  isTransactionValid tx s = true.
Proof. vm_compute. reflexivity. Qed.

(** ** The validator set *)

Section ValidatorSums.

Variable g : Validator.t -> Z.

Lemma sum_update (k : string) (f : Validator.t -> Validator.t)
    (m : list (string * Validator.t)) :
  foldr (fun kv acc => g kv.2 + acc) 0 (OMap.update k f m)
  = foldr (fun kv acc => g kv.2 + acc) 0 m
    + from_option (fun val => g (f val) - g val) 0 (OMap.get k m).
Proof.
  unfold OMap.get.
  induction m as [| [k' v'] m IH]; cbn; [reflexivity |].
  destruct (k' =? k)%string; cbn; [lia | rewrite IH; lia].
Qed.

Lemma sum_updateAt (i : nat) (f : Validator.t -> Validator.t)
    (m : list (string * Validator.t)) :
  foldr (fun kv acc => g kv.2 + acc) 0 (OMap.updateAt i f m)
  = foldr (fun kv acc => g kv.2 + acc) 0 m
    + from_option (fun kv => g (f kv.2) - g kv.2) 0 (m !! i).
Proof.
  unfold OMap.updateAt. revert i.
  induction m as [| [k' v'] m IH]; intros i; [destruct i; reflexivity |].
  destruct i as [| i]; cbn; [lia |].
  change (list_alter ?h i m) with (alter h i m). rewrite IH.
  rewrite Z.add_assoc. reflexivity.
Qed.

End ValidatorSums.

Lemma update_keys {V : Type} (k : string) (f : V -> V) (m : list (string * V)) :
  (OMap.update k f m).*1 = m.*1.
Proof.
  induction m as [| [k' v'] m IH]; cbn; [reflexivity |].
  destruct (k' =? k)%string; cbn; [reflexivity | rewrite IH; reflexivity].
Qed.

Lemma updateAt_keys {V : Type} (i : nat) (f : V -> V) (m : list (string * V)) :
  (OMap.updateAt i f m).*1 = m.*1.
Proof.
  unfold OMap.updateAt. revert i.
  induction m as [| [k' v'] m IH]; intros i; [destruct i; reflexivity |].
  destruct i as [| i]; cbn; [reflexivity |].
  change (list_alter ?h i m) with (alter h i m). rewrite IH. reflexivity.
Qed.

Lemma update_Forall {V : Type} (P : string * V -> Prop) (k : string) (f : V -> V)
    (m : list (string * V)) :
  (forall key val, P (key, val) -> P (key, f val)) ->
  Forall P m -> Forall P (OMap.update k f m).
Proof.
  intros Hf. induction 1 as [| [k' v'] m Hx Hm IH]; cbn; [constructor |].
  destruct (k' =? k)%string; constructor; auto.
Qed.

Lemma updateAt_Forall {V : Type} (P : string * V -> Prop) (i : nat) (f : V -> V)
    (m : list (string * V)) :
  (forall key val, P (key, val) -> P (key, f val)) ->
  Forall P m -> Forall P (OMap.updateAt i f m).
Proof.
  intros Hf Hm. unfold OMap.updateAt. revert i.
  induction Hm as [| [k' v'] m Hx Hm IH]; intros i; [destruct i; constructor |].
  destruct i as [| i]; cbn; constructor; auto.
Qed.

(** What a call does to the validators and the chain: nothing, a stake
    changed by [delegate], or a block and a counter added by
    [minePendingTransactions]. *)
Lemma step_validators (s s' : t) :
  step s s' ->
  (validators s' = validators s /\ chain s' = chain s)
  \/ (exists k n, OMap.has k (validators s) = true
                  /\ chain s' = chain s
                  /\ validators s'
                     = OMap.update k (Validator.increaseStake n) (validators s))
  \/ (exists i kv block, validators s !! i = Some kv
                   /\ chain s' = chain s ++ [block]
                   /\ validators s'
                      = OMap.updateAt i Validator.incrTotalBlocks (validators s)).
Proof.
  intros [transaction s0 | rand nowTx nowBlock s0 _ _ | d v n s0].
  - left. unfold exec. rewrite createTransaction_run.
    destruct (Transaction.isValid transaction); repeat split.
  - unfold exec.
    destruct (activeValidators s0) as [| first rest] eqn:Hact.
    { left. rewrite (minePendingTransactions_throws rand nowTx nowBlock s0 Hact).
      repeat split. }
    destruct (selectValidator_some rand s0) as (validator & Hsel & Hin); [congruence |].
    destruct (getLatestBlock s0) as [latest |] eqn:Hlatest.
    + right. right.
      destruct (activeValidators_In s0 validator Hin) as ((key & Hkey) & _).
      destruct (minePendingTransactions_success rand nowTx nowBlock s0 validator latest
                  Hsel Hlatest)
        as (s1 & block & -> & _ & _ & _ & _ & _ & Hchain & _ & Hvalidators & _).
      cbn [fst]. exists validator.1, (key, validator.2), block. auto.
    + left. rewrite (minePendingTransactions_typeError _ _ _ _ _ Hsel Hlatest).
      repeat split.
  - unfold exec.
    destruct (OMap.has v (validators s0)) eqn:Hknown.
    + destruct (getBalance d s0 <? n)%float eqn:Hlt.
      * left. rewrite delegate_insufficient by assumption. repeat split.
      * right. left. rewrite delegate_run by assumption. cbn [fst].
        exists v, n. split; [exact Hknown |].
        split; [apply delegated_frame |].
        unfold delegated. cbv zeta. cbn [validators set_validators].
        destruct (bool_decide _); reflexivity.
    + left. rewrite delegate_unknown by assumption. repeat split.
Qed.

(** The validators of a reachable state. *)
Lemma reachable_validators (s : t) :
  reachable s ->
  (validators s).*1 = ["validator1"; "validator2"; "validator3"]
  /\ Forall (fun kv => Validator.address kv.2 = kv.1
                       /\ Validator.isActive kv.2 = true
                       /\ Validator.missedBlocks kv.2 = 0) (validators s).
Proof.
  induction 1 as [now | s s' _ [IHkeys IHall] Hstep].
  - split; [reflexivity |]. repeat constructor.
  - destruct (step_validators s s' Hstep)
      as [(-> & _) | [(k & n & _ & _ & ->) | (i & kv & block & _ & _ & ->)]].
    + auto.
    + rewrite update_keys. split; [exact IHkeys |].
      apply update_Forall; [| exact IHall]. intros key val H. exact H.
    + rewrite updateAt_keys. split; [exact IHkeys |].
      apply updateAt_Forall; [| exact IHall]. intros key val H. exact H.
Qed.

(** X12. No call adds, removes, renames, deactivates or penalizes a
    validator: in every reachable state the map holds validator1,
    validator2 and validator3, in this order, each under its own address,
    active and with no missed block. *)
Theorem validator_set_fixed (s : t) :
  reachable s ->
  (validators s).*1 = ["validator1"; "validator2"; "validator3"]
  /\ Forall (fun kv => Validator.address kv.2 = kv.1
                       /\ Validator.isActive kv.2 = true
                       /\ Validator.missedBlocks kv.2 = 0) (validators s).
Proof. exact (reachable_validators s). Qed.

(** A witness of X12. *)
Lemma validator_set_fixed_witness :
  (validators Scenario.doubleSpendMined).*1 = ["validator1"; "validator2"; "validator3"]
  /\ Forall (fun kv => Validator.address kv.2 = kv.1
                       /\ Validator.isActive kv.2 = true
                       /\ Validator.missedBlocks kv.2 = 0)
       (validators Scenario.doubleSpendMined).
Proof. exact (validator_set_fixed Scenario.doubleSpendMined doubleSpend_reachable). Defined.


(** X13. In every reachable state the validators' [totalBlocks] counters
    add up to the block height that [getChainInfo] reports: every block
    after genesis was counted once, for one validator. *)
Theorem validator_totals (s : t) :
  reachable s -> producedBlocks s = blockHeight (getChainInfo s).
Proof.
  unfold producedBlocks, getChainInfo. cbn [blockHeight].
  induction 1 as [now | s s' _ IH Hstep]; [reflexivity |].
  destruct (step_validators s s' Hstep)
    as [(-> & ->) | [(k & n & Hknown & -> & ->) | (i & kv & block & Hi & -> & ->)]].
  - exact IH.
  - rewrite sum_update.
    destruct (OMap_has_get _ _ Hknown) as [val ->].
    cbn [from_option Validator.totalBlocks Validator.increaseStake]. lia.
  - rewrite sum_updateAt, Hi, length_app.
    cbn [from_option Validator.totalBlocks Validator.incrTotalBlocks List.length]. lia.
Qed.

(** A witness of X13. *)
Lemma validator_totals_witness :
  producedBlocks Scenario.doubleSpendMined
  = blockHeight (getChainInfo Scenario.doubleSpendMined).
Proof. exact (validator_totals Scenario.doubleSpendMined doubleSpend_reachable). Defined.

(** ** The pending pool and the blocks of reachable states *)

Lemma new_reward_valid (toAddress : string) (amount fee : float) (now : Z) :
  Transaction.isValid (Transaction.new None toAddress amount fee now) = true.
Proof. reflexivity. Qed.

Lemma Forall_filter {A : Type} (P : A -> Prop) (f : A -> bool) (l : list A) :
  Forall P l -> Forall P (List.filter f l).
Proof.
  induction 1 as [| x l Hx Hl IH]; cbn; [constructor |].
  destruct (f x); [constructor |]; assumption.
Qed.

(** What a call does to the pending pool and the chain. *)
Lemma step_pending (s s' : t) :
  step s s' ->
  (chain s' = chain s
   /\ (pendingTransactions s' = pendingTransactions s
       \/ exists tx, Transaction.isValid tx = true
                     /\ pendingTransactions s' = pendingTransactions s ++ [tx]))
  \/ (exists block validator now,
        chain s' = chain s ++ [block]
        /\ pendingTransactions s' = []
        /\ Block.index block = Z.of_nat (List.length (chain s))
        /\ Block.transactions block
           = List.filter (fun tx => isTransactionValid tx s) (pendingTransactions s)
             ++ [Transaction.new None validator (miningReward s) 0%float now]
        /\ Block.validator block = validator).
Proof.
  intros [transaction s0 | rand nowTx nowBlock s0 _ _ | d v n s0].
  - left. unfold exec. rewrite createTransaction_run.
    destruct (Transaction.isValid transaction) eqn:Hvalid; cbn; split; eauto.
  - unfold exec.
    destruct (activeValidators s0) as [| first rest] eqn:Hact.
    { left. rewrite (minePendingTransactions_throws rand nowTx nowBlock s0 Hact). auto. }
    destruct (selectValidator_some rand s0) as (validator & Hsel & Hin); [congruence |].
    destruct (getLatestBlock s0) as [latest |] eqn:Hlatest.
    + right.
      destruct (minePendingTransactions_success rand nowTx nowBlock s0 validator latest
                  Hsel Hlatest)
        as (s1 & block & -> & Hindex & _ & Hvalidator & _ & Htxs & Hchain & Hpending & _).
      exists block, (Validator.address validator.2), nowTx. cbn [fst]. auto.
    + left. rewrite (minePendingTransactions_typeError _ _ _ _ _ Hsel Hlatest).
      cbn. split; [reflexivity |]. right. eexists. split; [| reflexivity]. reflexivity.
  - left. split; [apply delegate_chain |]. left. unfold exec.
    destruct (OMap.has v (validators s0)) eqn:Hknown.
    + destruct (getBalance d s0 <? n)%float eqn:Hlt.
      * rewrite delegate_insufficient by assumption. reflexivity.
      * rewrite delegate_run by assumption. apply delegated_frame.
    + rewrite delegate_unknown by assumption. reflexivity.
Qed.

(** X14. In every reachable state every pending transaction passes
    [isValid], and every block after genesis holds only transactions that
    pass [isValid] and ends with the reward of its own production: no
    origin, the block's validator as destination, amount 100, fee 0. *)
Theorem pending_and_blocks_valid (s : t) :
  reachable s ->
  Forall (fun tx => Transaction.isValid tx = true) (pendingTransactions s)
  /\ (forall i block, (0 < i)%nat -> chain s !! i = Some block ->
        Forall (fun tx => Transaction.isValid tx = true) (Block.transactions block)
        /\ exists transactions reward,
             Block.transactions block = transactions ++ [reward]
             /\ Transaction.fromAddress reward = None
             /\ Transaction.toAddress reward = Block.validator block
             /\ Transaction.amount reward = 100%float
             /\ Transaction.fee reward = 0%float).
Proof.
  intros Hreach.
  induction Hreach as [now | s s' Hreach [IHpending IHblocks] Hstep].
  - split; [constructor |]. intros i block Hpos Hi. rewrite constructor_chain in Hi.
    destruct i as [| i]; [lia | discriminate].
  - pose proof (reachable_miningReward s Hreach) as Hreward.
    destruct (step_pending s s' Hstep)
      as [(-> & [-> | (tx & Hvalid & ->)])
         | (block & validator & now & -> & -> & _ & Htxs & Hvalidator)].
    + auto.
    + split; [| exact IHblocks]. apply Forall_app. split; [exact IHpending |].
      constructor; [exact Hvalid | constructor].
    + split; [constructor |]. intros i b Hpos Hi.
      destruct (Nat.lt_ge_cases i (List.length (chain s))) as [Hlt | Hge].
      * rewrite lookup_app_l in Hi by exact Hlt. apply (IHblocks i b Hpos Hi).
      * rewrite lookup_app_r in Hi by exact Hge.
        destruct (i - List.length (chain s))%nat as [| k]; cbn in Hi; [| discriminate].
        injection Hi as <-. rewrite Htxs, Hvalidator, Hreward. split.
        -- apply Forall_app. split; [apply Forall_filter, IHpending |].
           constructor; [apply new_reward_valid | constructor].
        -- eexists _, _. split; [reflexivity |]. repeat split.
Qed.

(** A witness of X14. *)
Lemma pending_and_blocks_valid_witness :
  Forall (fun tx => Transaction.isValid tx = true)
    (pendingTransactions Scenario.doubleSpendMined)
  /\ (forall i block, (0 < i)%nat -> chain Scenario.doubleSpendMined !! i = Some block ->
        Forall (fun tx => Transaction.isValid tx = true) (Block.transactions block)
        /\ exists transactions reward,
             Block.transactions block = transactions ++ [reward]
             /\ Transaction.fromAddress reward = None
             /\ Transaction.toAddress reward = Block.validator block
             /\ Transaction.amount reward = 100%float
             /\ Transaction.fee reward = 0%float).
Proof. exact (pending_and_blocks_valid Scenario.doubleSpendMined doubleSpend_reachable). Defined.

(** X15. On a reachable state [minePendingTransactions] has two
    outcomes only. Without a validator that is active and staked it throws
    the no-active-validators error and leaves the state as it is.
    Otherwise it returns a block: the height [getChainInfo] reports grows
    by one and its count of pending transactions is 0. Reading the latest
    block never fails. *)
Theorem minePendingTransactions_outcomes (rand : float) (nowTx nowBlock : Z) (s : t) :
  reachable s ->
  (activeValidators s = []
   /\ minePendingTransactions rand nowTx nowBlock s = (s, Throw NoActiveValidators))
  \/ (activeValidators s <> []
      /\ exists s' block,
           minePendingTransactions rand nowTx nowBlock s = (s', Return block)
           /\ blockHeight (getChainInfo s') = blockHeight (getChainInfo s) + 1
           /\ infoPendingTransactions (getChainInfo s') = 0).
Proof.
  intros Hreach.
  destruct (activeValidators s) as [| first rest] eqn:Hact.
  - left. split; [reflexivity |]. apply minePendingTransactions_throws, Hact.
  - right. split; [discriminate |].
    destruct (selectValidator_some rand s) as (validator & Hsel & _); [congruence |].
    destruct (getLatestBlock_some s (reachable_chain_nonempty s Hreach)) as [latest Hlatest].
    destruct (minePendingTransactions_success rand nowTx nowBlock s validator latest
                Hsel Hlatest)
      as (s' & block & Hrun & _ & _ & _ & _ & _ & Hchain & Hpending & _).
    exists s', block. split; [exact Hrun |].
    unfold getChainInfo. cbn [blockHeight infoPendingTransactions].
    rewrite Hchain, Hpending, length_app. cbn [List.length].
    split; [lia | reflexivity].
Qed.

(** A witness of X15. *)
Lemma minePendingTransactions_outcomes_witness :
  (activeValidators Scenario.doubleSpendPending = []
   /\ minePendingTransactions 0.5%float 3 4 Scenario.doubleSpendPending
      = (Scenario.doubleSpendPending, Throw NoActiveValidators))
  \/ (activeValidators Scenario.doubleSpendPending <> []
      /\ exists s' block,
           minePendingTransactions 0.5%float 3 4 Scenario.doubleSpendPending
           = (s', Return block)
           /\ blockHeight (getChainInfo s')
              = blockHeight (getChainInfo Scenario.doubleSpendPending) + 1
           /\ infoPendingTransactions (getChainInfo s') = 0).
Proof.
  apply (minePendingTransactions_outcomes 0.5%float 3 4 Scenario.doubleSpendPending).
  apply (reachable_step (exec (createTransaction (Scenario.spend 1)) Scenario.genesis)).
  - apply (reachable_step Scenario.genesis);
      [apply reachable_constructor | apply step_createTransaction].
  - apply step_createTransaction.
Defined.

(** ** Transactions without origin *)




(** In a run: an unsigned transaction of 1000000 is mined at genesis. *)
Example unsigned_mint_scenario :
  let s :=
    exec (minePendingTransactions 0.5%float 2 3)
      (exec (createTransaction
               (Transaction.new None "anyone" 1000000%float 0%float 1))
         Scenario.genesis) in
  getBalance "anyone" s = 1000000%float /\ totalSupply s = 3400100%float.
Proof. split; vm_compute; reflexivity. Qed.

(** ** Delegation: what else it leaves alone *)

Lemma delegated_staking_other (d v d' v' : string) (n : float) (s : t) :
  d' <> d \/ v' <> v ->
  getStakingInfo d' (delegated d v n s) !! v' = getStakingInfo d' s !! v'.
Proof.
  intros Hne. unfold getStakingInfo, delegated. cbv zeta.
  change (stakingPool (exec (setBalance d (getBalance d s - n)%float) s)) with (stakingPool s).
  case_bool_decide as Hpresent; cbn [stakingPool set_validators set_stakingPool];
    change (stakingPool (exec (setBalance d (getBalance d s - n)%float) s))
      with (stakingPool s).
  - destruct Hpresent as [inner Hinner]. rewrite Hinner. cbn [default].
    destruct (decide (d' = d)) as [-> | Hd].
    + rewrite lookup_insert_eq, Hinner. cbn.
      destruct Hne as [Hne | Hne]; [congruence |].
      rewrite lookup_insert_ne by congruence. reflexivity.
    + rewrite lookup_insert_ne by congruence. reflexivity.
  - assert (stakingPool s !! d = None) as Hnone.
    { destruct (stakingPool s !! d) eqn:E; [exfalso; apply Hpresent; eauto | reflexivity]. }
    rewrite lookup_insert_eq. cbn [default]. rewrite insert_insert_eq.
    destruct (decide (d' = d)) as [-> | Hd].
    + rewrite lookup_insert_eq, Hnone. cbn.
      destruct Hne as [Hne | Hne]; [congruence |].
      rewrite lookup_insert_ne by congruence. reflexivity.
    + rewrite lookup_insert_ne by congruence. reflexivity.
Qed.

(** X17. Whether it returns or throws, [delegate] leaves alone the
    chain, the pending pool, the total supply and [miningReward], the
    balance of every address but the delegator's, every validator but the
    one named, every staking entry but the delegator's for that validator,
    and of the named validator everything but its stake. *)
Theorem delegate_frame (delegatorAddress validatorAddress : string) (amount : float) (s : t) :
  let s' := exec (delegate delegatorAddress validatorAddress amount) s in
  chain s' = chain s
  /\ pendingTransactions s' = pendingTransactions s
  /\ totalSupply s' = totalSupply s
  /\ miningReward s' = miningReward s
  /\ (forall a, a <> delegatorAddress -> getBalance a s' = getBalance a s)
  /\ (forall k, k <> validatorAddress ->
        OMap.get k (validators s') = OMap.get k (validators s))
  /\ (forall d k, d <> delegatorAddress \/ k <> validatorAddress ->
        getStakingInfo d s' !! k = getStakingInfo d s !! k)
  /\ (forall validator,
        OMap.get validatorAddress (validators s) = Some validator ->
        exists validator',
          OMap.get validatorAddress (validators s') = Some validator'
          /\ Validator.address validator' = Validator.address validator
          /\ Validator.isActive validator' = Validator.isActive validator
          /\ Validator.missedBlocks validator' = Validator.missedBlocks validator
          /\ Validator.totalBlocks validator' = Validator.totalBlocks validator).
Proof.
  cbv zeta. unfold exec.
  assert (forall st : t, st = s ->
    chain st = chain s /\ pendingTransactions st = pendingTransactions s
    /\ totalSupply st = totalSupply s /\ miningReward st = miningReward s
    /\ (forall a, a <> delegatorAddress -> getBalance a st = getBalance a s)
    /\ (forall k, k <> validatorAddress ->
          OMap.get k (validators st) = OMap.get k (validators s))
    /\ (forall d k, d <> delegatorAddress \/ k <> validatorAddress ->
          getStakingInfo d st !! k = getStakingInfo d s !! k)
    /\ (forall validator,
          OMap.get validatorAddress (validators s) = Some validator ->
          exists validator',
            OMap.get validatorAddress (validators st) = Some validator'
            /\ Validator.address validator' = Validator.address validator
            /\ Validator.isActive validator' = Validator.isActive validator
            /\ Validator.missedBlocks validator' = Validator.missedBlocks validator
            /\ Validator.totalBlocks validator' = Validator.totalBlocks validator))
    as Hsame.
  { intros st ->. repeat split; eauto. intros validator Hget. exists validator. auto. }
  destruct (OMap.has validatorAddress (validators s)) eqn:Hknown.
  - destruct (getBalance delegatorAddress s <? amount)%float eqn:Hlt.
    + rewrite delegate_insufficient by assumption. apply Hsame. reflexivity.
    + rewrite delegate_run by assumption. cbn [fst].
      destruct (delegated_frame delegatorAddress validatorAddress amount s)
        as (Hc & Hp & Hm & Hs).
      split; [exact Hc |]. split; [exact Hp |]. split; [exact Hs |]. split; [exact Hm |].
      split; [| split; [| split]].
      * intros a Ha. rewrite delegated_balance. case_decide; congruence.
      * intros k Hk. apply delegated_validator_other. congruence.
      * intros d k Hdk. apply delegated_staking_other. exact Hdk.
      * intros validator Hget. rewrite delegated_validator, Hget.
        eexists. split; [reflexivity |]. repeat split.
  - rewrite delegate_unknown by assumption. apply Hsame. reflexivity.
Qed.

(** ** Wallet creation *)

(** X19. [createWallet] returns the new wallet, sets the balance of its
    address to 1000 whatever it was, sets the total supply to
    [totalSupply + 1000] in the code's double arithmetic and touches
    nothing else. A balance the address already held (received before the
    wallet was created, or of another wallet with the same address) is
    written over by the 1000. *)
Theorem createWallet_effect (privateKey : string) (s : t) :
  let wallet := SimpleWallet.new privateKey in
  let s' := exec (BlockchainApp.createWallet privateKey) s in
  BlockchainApp.createWallet privateKey s = (s', Return wallet)
  /\ getBalance (SimpleWallet.address wallet) s' = 1000%float
  /\ (forall a, a <> SimpleWallet.address wallet -> getBalance a s' = getBalance a s)
  /\ balances s' = <[SimpleWallet.address wallet := 1000%float]> (balances s)
  /\ totalSupply s' = (totalSupply s + 1000)%float
  /\ chain s' = chain s /\ pendingTransactions s' = pendingTransactions s
  /\ validators s' = validators s /\ stakingPool s' = stakingPool s.
Proof.
  cbv zeta.
  set (address := SimpleWallet.address (SimpleWallet.new privateKey)).
  assert (exec (BlockchainApp.createWallet privateKey) s
          = set_totalSupply (totalSupply s + 1000)%float
              (exec (setBalance address 1000%float) s))
    as Hexec by reflexivity.
  split; [reflexivity |]. rewrite Hexec.
  change (getBalance ?a (set_totalSupply ?x ?st)) with (getBalance a st).
  split; [rewrite getBalance_setBalance; case_decide; [reflexivity | congruence] |].
  split; [intros a Ha; rewrite getBalance_setBalance; case_decide; congruence |].
  repeat split.
Qed.

Example createWallet_overwrites :
  let received :=
    exec (minePendingTransactions 0.5%float 2 3)
      (exec (createTransaction
               (Transaction.new None "17862" 5000%float 0%float 1)) Scenario.genesis) in
  getBalance "17862" received = 5000%float
  /\ getBalance "17862" (exec (BlockchainApp.createWallet "abc") received) = 1000%float.
Proof. split; vm_compute; reflexivity. Qed.

(** ** Known validators *)

Lemma OMap_has_keys {V : Type} (k : string) (m : list (string * V)) :
  OMap.has k m = true <-> In k m.*1.
Proof.
  unfold OMap.has. induction m as [| [k' v'] m IH]; cbn; [split; [discriminate | tauto] |].
  destruct (String.eqb_spec k' k) as [-> | Hne]; cbn.
  - split; auto.
  - rewrite IH. split; [auto | intros [H | H]; [congruence | exact H]].
Qed.

Lemma filter_active_all (m : list (string * Validator.t)) (h : nat -> nat) :
  Forall (fun kv => Validator.isActive kv.2 = true) m ->
  List.filter (fun v : nat * Validator.t => Validator.isActive v.2)
    (imap (fun i kv => (h i, kv.2)) m)
  = imap (fun i kv => (h i, kv.2)) m.
Proof.
  revert h. induction m as [| kv m IH]; intros h Hm; [reflexivity |].
  inversion Hm as [| ? ? Hkv Hm']; subst. cbn. rewrite Hkv. f_equal.
  apply (IH (fun i => h (S i)) Hm').
Qed.

(** X20. In every reachable state [delegate] throws the
    unknown-validator error, and changes nothing, for every validator
    address other than validator1, validator2 and validator3, and gets
    past that check for these three; and [getChainInfo] counts three active
    validators, whatever their stakes. *)
Theorem known_validators (s : t) (delegatorAddress validatorAddress : string) (amount : float) :
  reachable s ->
  (delegate delegatorAddress validatorAddress amount s = (s, Throw UnknownValidator)
   <-> validatorAddress <> "validator1" /\ validatorAddress <> "validator2"
       /\ validatorAddress <> "validator3")
  /\ infoActiveValidators (getChainInfo s) = 3.
Proof.
  intros Hreach. destruct (reachable_validators s Hreach) as [Hkeys Hall].
  split.
  - destruct (OMap.has validatorAddress (validators s)) eqn:Hknown.
    + assert (In validatorAddress ["validator1"; "validator2"; "validator3"]) as Hin.
      { rewrite <- Hkeys. apply OMap_has_keys, Hknown. }
      split.
      * intros Hthrow. exfalso.
        destruct (getBalance delegatorAddress s <? amount)%float eqn:Hlt.
        -- rewrite delegate_insufficient in Hthrow by assumption. discriminate.
        -- rewrite delegate_run in Hthrow by assumption. discriminate.
      * intros (H1 & H2 & H3). exfalso. cbn in Hin. intuition congruence.
    + split; [| intros _; apply delegate_unknown, Hknown].
      intros _.
      assert (~ In validatorAddress ["validator1"; "validator2"; "validator3"]) as Hnotin.
      { rewrite <- Hkeys. intros Hin. apply OMap_has_keys in Hin. congruence. }
      cbn in Hnotin. repeat split; intros ->; apply Hnotin; auto.
  - unfold getChainInfo. cbn [infoActiveValidators].
    unfold OMap.values. rewrite (filter_active_all (validators s) (fun i => i)).
    + rewrite length_imap, <- (length_fmap fst), Hkeys. reflexivity.
    + eapply Forall_impl; [exact Hall |]. intros kv (_ & H & _). exact H.
Qed.

(** A witness of X20. *)
Lemma known_validators_witness :
  (delegate "17862" "validator4" 5%float Scenario.doubleSpendMined
   = (Scenario.doubleSpendMined, Throw UnknownValidator)
   <-> "validator4" <> "validator1" /\ "validator4" <> "validator2"
       /\ "validator4" <> "validator3")
  /\ infoActiveValidators (getChainInfo Scenario.doubleSpendMined) = 3.
Proof.
  exact (known_validators Scenario.doubleSpendMined "17862" "validator4" 5%float
           doubleSpend_reachable).
Defined.
